(** * Svelte bindings of the Pillar SDK: provider, context operations, hooks

    A shallow embedding of [PillarProvider.svelte], [stores/usePillar.ts] and
    [stores/useHelpPanel.ts].  The adapter is glue code around two external
    collaborators, the Pillar SDK and the Svelte runtime.  Every call that
    crosses that boundary is recorded, with its arguments and with the
    identity of whatever the collaborator hands back, in one ordered trace;
    what a collaborator does in response (emitting an event, invoking a card
    renderer, calling a cleanup) is a separate step of the model that runs the
    corresponding closure of the adapter. *)

From Stdlib Require Import String List Bool Arith Lia.
Import ListNotations.
Open Scope string_scope.
Open Scope list_scope.
Set Warnings "-register-all".

(** ** JavaScript values the adapter only passes along *)

Inductive JsVal : Type :=
| JUndefined
| JNull
| JBool (b : bool)
| JNum (n : nat)
| JStr (s : string)
| JFun (id : nat)
| JError (message : string)
| JObj (fields : list (string * JsVal)).

(** Truthiness of a string ([if (query)], [!productKey]). *)
Definition truthy_string (s : string) : bool := negb (String.eqb s EmptyString).

(** Truthiness of an optional string prop: [undefined] and the empty string are falsy. *)
Definition truthy (o : option string) : bool :=
  match o with
  | Some s => truthy_string s
  | None => false
  end.

(** [if (x) { ... x ... } else { ... }] on an optional string. *)
Definition if_truthy {A : Type} (o : option string) (yes : string -> A) (no : A)
  : A :=
  match o with
  | Some s => if truthy_string s then yes s else no
  | None => no
  end.

(** [a ?? b] on optional strings: only [undefined] falls through. *)
Definition nullish_or (a b : option string) : option string :=
  match a with
  | Some s => Some s
  | None => b
  end.

(** ** Identities of objects owned by the collaborators *)

(** A Pillar object (the SDK client). *)
Definition Pillar := nat.
(** A DOM element handed in by the SDK as card container. *)
Definition HTMLElement := nat.
(** A Svelte component definition. *)
Definition Component := nat.
(** What Svelte's [mount] returns. *)
Definition Handle := nat.
(** A function object returned by the SDK ([on], [onTask], [registerCard]). *)
Definition Token := nat.
(** A rendered-children snippet. *)
Definition Snippet := nat.

(** The options object of [Pillar.open]. *)
Record OpenOptions : Type := mkOpenOptions {
  view : option string;
  article : option string;
  search_query : option string;
  focusInput : option bool
}.

(** [CardCallbacks] of the SDK and the props a card component receives. *)
Record CardCallbacks : Type := mkCardCallbacks {
  cb_onConfirm : JsVal;
  cb_onCancel : JsVal;
  cb_onStateChange : JsVal
}.

Record CardComponentProps : Type := mkCardComponentProps {
  data : JsVal;
  onConfirm : JsVal;
  onCancel : JsVal;
  onStateChange : JsVal
}.

(** ** Closures of the adapter, one constructor per function literal *)

(** Functions handed to [instance.on]. *)
Inductive Listener : Type :=
| L_panelOpen                (* () => { isPanelOpenStore.set(true) } *)
| L_panelClose               (* () => { isPanelOpenStore.set(false) } *)
| L_ready                    (* () => { stateStore.set('ready') } *)
| L_error                    (* () => { stateStore.set('error') } *)
| L_task (onTask : JsVal)    (* (task) => { onTask(task) } *)
| L_user (callback : JsVal). (* the callback given to the context's [on] *)

(** The renderer handed to [instance.registerCard]; it closes over the
    component of the [cards] entry. *)
Inductive Renderer : Type :=
| R_card (CardComponent : Component).

(** Functions of type [() => void] that the adapter returns or stores. *)
Inductive Thunk : Type :=
| T_noop                              (* () => {} *)
| T_sdk (t : Token)                   (* a function the SDK returned *)
| T_cardCleanup (container : HTMLElement). (* cleanup returned by the renderer *)

(** A JavaScript object as its own properties, in insertion order. *)
Definition JsObject : Type := list (string * JsVal).

(** [o[k]] for an own property. *)
Fixpoint obj_get (k : string) (o : JsObject) : option JsVal :=
  match o with
  | [] => None
  | (k', v) :: rest => if String.eqb k' k then Some v else obj_get k rest
  end.

(** [o[k] = v]: an existing property keeps its place, a new one goes last. *)
Fixpoint obj_set (k : string) (v : JsVal) (o : JsObject) : JsObject :=
  match o with
  | [] => [(k, v)]
  | (k', v') :: rest =>
      if String.eqb k' k then (k', v) :: rest else (k', v') :: obj_set k v rest
  end.

(** [{ ...o, ...source }]: the properties of [source] are assigned in
    order, replacing properties of the same name. *)
Definition spread (o source : JsObject) : JsObject :=
  fold_left (fun acc kv => obj_set (fst kv) (snd kv) acc) source o.

(** The value of an optional string: [undefined] when absent. *)
Definition js_of_key (key : option string) : JsVal :=
  match key with
  | Some s => JStr s
  | None => JUndefined
  end.

(** The argument of [Pillar.init] is an object. *)
Definition InitArgs : Type := JsObject.

(** [{ productKey: resolvedKey, ...config }]: the [productKey] property
    comes first, then the properties of [config], if any, are spread over
    it; a [productKey] among them replaces the resolved key. *)
Definition mkInitArgs (key : option string) (cfg : option JsObject) : InitArgs :=
  spread [("productKey", js_of_key key)]
    (match cfg with
     | Some c => c
     | None => []
     end).
Arguments mkInitArgs : simpl never.

(** ** The trace of calls that leave the adapter *)

Inductive Effect : Type :=
| SdkInit (args : InitArgs)
| SdkOpen (i : Pillar) (options : option OpenOptions)
| SdkClose (i : Pillar)
| SdkToggle (i : Pillar)
| SdkNavigate (i : Pillar) (v : string) (params : option (list (string * string)))
| SdkSetTheme (i : Pillar) (theme : JsVal)
| SdkSetTextSelectionEnabled (i : Pillar) (enabled : bool)
| SdkOn (i : Pillar) (event : string) (l : Listener) (returned : Token)
| SdkOnTask (i : Pillar) (taskName : string) (handler : JsVal) (returned : Token)
| SdkRegisterCard (i : Pillar) (cardType : string) (r : Renderer) (returned : Token)
| SdkUnsubscribe (t : Token)
| SvelteMount (c : Component) (target : HTMLElement) (props : CardComponentProps)
    (returned : Handle)
| SvelteUnmount (h : Handle)
| ConsoleWarn (message : string)
| ConsoleError (message : string) (error : JsVal)
| UserCall (f : JsVal) (arg : JsVal).

(** ** State *)

(** What lives outside the provider: the SDK's static singleton slot, the
    [state] field of each Pillar object, a supply of fresh identities and the
    trace. *)
Record Env : Type := mkEnv {
  Pillar_instance : option Pillar;
  Pillar_state : Pillar -> string;
  fresh : nat;
  trace : list Effect
}.

(** Props of [PillarProvider].  [cards] is kept as the sequence that
    [Object.entries] enumerates. *)
Record Props : Type := mkProps {
  productKey : option string;
  helpCenter : option string;
  config : option JsObject;
  onTask : option JsVal;
  cards : option (list (string * Component));
  children : option Snippet
}.

(** One [set] call on one of the three writable stores. *)
Inductive StoreWrite : Type :=
| W_pillar (v : option Pillar)
| W_state (v : string)
| W_isPanelOpen (v : bool).

(** The variables of one provider activation.  [storeWrites] lists the
    [set] calls made so far, oldest first. *)
Record Provider : Type := mkProvider {
  props : Props;
  resolvedKey : option string;
  pillarStore_value : option Pillar;
  stateStore_value : string;
  isPanelOpenStore_value : bool;
  storeWrites : list StoreWrite;
  cleanupFunctions : list Thunk;
  cardInstances : list (HTMLElement * Handle)
}.

Record World : Type := mkWorld {
  prov : Provider;
  env : Env
}.

(** *** Field updates *)

Definition with_trace (f : list Effect -> list Effect) (e : Env) : Env :=
  mkEnv (Pillar_instance e) (Pillar_state e) (fresh e) (f (trace e)).

Definition with_fresh (n : nat) (e : Env) : Env :=
  mkEnv (Pillar_instance e) (Pillar_state e) n (trace e).

Definition set_pillarStore (v : option Pillar) (p : Provider) : Provider :=
  mkProvider (props p) (resolvedKey p) v (stateStore_value p) (isPanelOpenStore_value p)
    (storeWrites p ++ [W_pillar v]) (cleanupFunctions p) (cardInstances p).

Definition set_stateStore (v : string) (p : Provider) : Provider :=
  mkProvider (props p) (resolvedKey p) (pillarStore_value p) v (isPanelOpenStore_value p)
    (storeWrites p ++ [W_state v]) (cleanupFunctions p) (cardInstances p).

Definition set_isPanelOpenStore (v : bool) (p : Provider) : Provider :=
  mkProvider (props p) (resolvedKey p) (pillarStore_value p) (stateStore_value p) v
    (storeWrites p ++ [W_isPanelOpen v]) (cleanupFunctions p) (cardInstances p).

Definition set_cleanupFunctions (l : list Thunk) (p : Provider) : Provider :=
  mkProvider (props p) (resolvedKey p) (pillarStore_value p) (stateStore_value p)
    (isPanelOpenStore_value p) (storeWrites p) l (cardInstances p).

Definition set_cardInstances (m : list (HTMLElement * Handle)) (p : Provider)
  : Provider :=
  mkProvider (props p) (resolvedKey p) (pillarStore_value p) (stateStore_value p)
    (isPanelOpenStore_value p) (storeWrites p) (cleanupFunctions p) m.

Definition on_prov (f : Provider -> Provider) (w : World) : World :=
  mkWorld (f (prov w)) (env w).

Definition on_env (f : Env -> Env) (w : World) : World :=
  mkWorld (prov w) (f (env w)).

(** Appending one effect to the trace. *)
Definition record (e : Effect) (w : World) : World :=
  on_env (with_trace (fun t => t ++ [e])) w.

(** *** A JS [Map] keyed by element identity, in insertion order *)

Fixpoint map_get (k : HTMLElement) (m : list (HTMLElement * Handle))
  : option Handle :=
  match m with
  | [] => None
  | (k', v) :: rest => if Nat.eqb k' k then Some v else map_get k rest
  end.

Fixpoint map_set (k : HTMLElement) (v : Handle) (m : list (HTMLElement * Handle))
  : list (HTMLElement * Handle) :=
  match m with
  | [] => [(k, v)]
  | (k', v') :: rest =>
      if Nat.eqb k' k then (k', v) :: rest else (k', v') :: map_set k v rest
  end.

Fixpoint map_delete (k : HTMLElement) (m : list (HTMLElement * Handle))
  : list (HTMLElement * Handle) :=
  match m with
  | [] => []
  | (k', v') :: rest =>
      if Nat.eqb k' k then rest else (k', v') :: map_delete k rest
  end.

(** ** The monad of adapter code: state and JavaScript exceptions *)

Inductive Outcome (A : Type) : Type :=
| Ok (a : A)
| Thrown (e : JsVal).
Arguments Ok {A} a.
Arguments Thrown {A} e.

Definition M (A : Type) : Type := World -> Outcome A * World.

Definition ret {A : Type} (a : A) : M A := fun w => (Ok a, w).

Definition throw {A : Type} (e : JsVal) : M A := fun w => (Thrown e, w).

Definition bind {A B : Type} (c : M A) (k : A -> M B) : M B :=
  fun w =>
    match c w with
    | (Ok a, w') => k a w'
    | (Thrown e, w') => (Thrown e, w')
    end.

(** [try { body } catch (error) { handler }] *)
Definition try_catch {A : Type} (body : M A) (handler : JsVal -> M A) : M A :=
  fun w =>
    match body w with
    | (Ok a, w') => (Ok a, w')
    | (Thrown e, w') => handler e w'
    end.

Declare Scope js_scope.
Delimit Scope js_scope with js.
Notation "x <- c1 ;; c2" := (bind c1 (fun x => c2))
  (at level 61, c1 at next level, right associativity) : js_scope.
Notation "c1 ;; c2" := (bind c1 (fun _ => c2))
  (at level 61, right associativity) : js_scope.
Open Scope js_scope.

Definition asks {A : Type} (f : World -> A) : M A := fun w => (Ok (f w), w).

Definition modify (f : World -> World) : M unit := fun w => (Ok tt, f w).

Definition effect (e : Effect) : M unit := modify (record e).

Definition fresh_id : M nat :=
  fun w => (Ok (fresh (env w)), on_env (with_fresh (S (fresh (env w)))) w).

Fixpoint forEach {A : Type} (f : A -> M unit) (l : list A) : M unit :=
  match l with
  | [] => ret tt
  | x :: rest => f x ;; forEach f rest
  end.

Definition final {A : Type} (r : Outcome A * World) : World := snd r.

(** ** The collaborators, as seen from the adapter *)

(** The SDK is not part of the adapter.  Its static slot and the [state]
    field of its objects are read from [Env]; a call of one of its methods is
    recorded in the trace with its arguments and, where the method returns a
    function, with the identity of that function.  The only SDK call whose
    failure the adapter provides for is [Pillar.init]; all others return
    normally. *)
Module Sdk.

(** [Pillar.getInstance()] *)
Definition getInstance : M (option Pillar) :=
  asks (fun w => Pillar_instance (env w)).

(** [instance.state] *)
Definition state (i : Pillar) : M string :=
  asks (fun w => Pillar_state (env w) i).

(** How a call of [Pillar.init] ends. *)
Inductive InitOutcome : Type :=
| InitResolves (instance : Pillar)
| InitRejects (error : JsVal)
| InitThrows (error : JsVal).

(** The call [Pillar.init(args)] itself: it returns a promise unless it
    throws on the spot. *)
Definition init (args : InitArgs) (o : InitOutcome) : M unit :=
  effect (SdkInit args) ;;
  match o with
  | InitThrows e => throw e
  | _ => ret tt
  end.

(** [await] on the promise of [Pillar.init]. *)
Definition await_init (o : InitOutcome) : M Pillar :=
  match o with
  | InitResolves i => ret i
  | InitRejects e => throw e
  | InitThrows e => throw e
  end.

Definition open (i : Pillar) (options : option OpenOptions) : M unit :=
  effect (SdkOpen i options).

Definition close (i : Pillar) : M unit := effect (SdkClose i).

Definition toggle (i : Pillar) : M unit := effect (SdkToggle i).

Definition navigate (i : Pillar) (v : string)
  (params : option (list (string * string))) : M unit :=
  effect (SdkNavigate i v params).

Definition setTheme (i : Pillar) (theme : JsVal) : M unit :=
  effect (SdkSetTheme i theme).

Definition setTextSelectionEnabled (i : Pillar) (enabled : bool) : M unit :=
  effect (SdkSetTextSelectionEnabled i enabled).

(** [instance.on(event, listener)]: returns a new unsubscribe function. *)
Definition on (i : Pillar) (event : string) (l : Listener) : M Thunk :=
  t <- fresh_id ;;
  effect (SdkOn i event l t) ;;
  ret (T_sdk t).

Definition onTask (i : Pillar) (taskName : string) (handler : JsVal) : M Thunk :=
  t <- fresh_id ;;
  effect (SdkOnTask i taskName handler t) ;;
  ret (T_sdk t).

Definition registerCard (i : Pillar) (cardType : string) (r : Renderer)
  : M Thunk :=
  t <- fresh_id ;;
  effect (SdkRegisterCard i cardType r t) ;;
  ret (T_sdk t).

(** Calling a function that the SDK returned. *)
Definition unsubscribe (t : Token) : M unit := effect (SdkUnsubscribe t).

End Sdk.

Module Svelte.

(** Stores of [svelte/store], as views on the world. *)
Record Readable (A : Type) : Type := mkReadable {
  current : World -> A
}.
Arguments mkReadable {A} current.
Arguments current {A} r w.

Record Writable (A : Type) : Type := mkWritable {
  readable : Readable A;
  set : A -> M unit
}.
Arguments mkWritable {A} readable set.
Arguments readable {A} w.
Arguments set {A} w v.

(** [get(store)] *)
Definition get {A : Type} (s : Readable A) : M A := asks (current s).

(** [derived(store, f)] *)
Definition derived {A B : Type} (s : Readable A) (f : A -> B) : Readable B :=
  mkReadable (fun w => f (current s w)).

(** [mount(Component, { target, props })] *)
Definition mount (c : Component) (target : HTMLElement)
  (p : CardComponentProps) : M Handle :=
  h <- fresh_id ;;
  effect (SvelteMount c target p h) ;;
  ret h.

Definition unmount (h : Handle) : M unit := effect (SvelteUnmount h).

End Svelte.

Module Console.

Definition warn (message : string) : M unit := effect (ConsoleWarn message).

Definition error (message : string) (e : JsVal) : M unit :=
  effect (ConsoleError message e).

End Console.

(** ** types.ts *)

Module Types.

Record PillarContextValue : Type := mkPillarContextValue {
  pillar : Svelte.Writable (option Pillar);
  state : Svelte.Writable string;
  isReady : Svelte.Readable bool;
  isPanelOpen : Svelte.Writable bool;
  open : option OpenOptions -> M unit;
  close : M unit;
  toggle : M unit;
  openArticle : string -> M unit;
  openCategory : string -> M unit;
  search : string -> M unit;
  navigate : string -> option (list (string * string)) -> M unit;
  setTheme : JsVal -> M unit;
  setTextSelectionEnabled : bool -> M unit;
  on : string -> JsVal -> M Thunk
}.

End Types.

(** ** PillarProvider.svelte *)

Module PillarProvider.

(** The text of the deprecation warning; [dquote] is the double-quote
    character around the two prop names. *)
Definition dquote : string :=
  String (Ascii.Ascii false true false false false true false false) EmptyString.

Definition deprecation_message : string :=
  Eval cbv in
    String.concat dquote
      ["[Pillar Svelte] "; "helpCenter"; " prop is deprecated. Use ";
       "productKey"; " instead."].

(** The component script up to the store declarations: the key is resolved,
    the deprecation warning is printed, the stores get their initial
    values. *)
Definition create (P : Props) (e : Env) : World :=
  let w := mkWorld
             (mkProvider P (nullish_or (productKey P) (helpCenter P))
                None "uninitialized" false [] [] [])
             e in
  if truthy (helpCenter P) && negb (truthy (productKey P))
  then record (ConsoleWarn deprecation_message) w
  else w.

(** The three writable stores and the derived one. *)
Definition pillarStore : Svelte.Writable (option Pillar) :=
  Svelte.mkWritable
    (Svelte.mkReadable (fun w => pillarStore_value (prov w)))
    (fun v => modify (on_prov (set_pillarStore v))).

Definition stateStore : Svelte.Writable string :=
  Svelte.mkWritable
    (Svelte.mkReadable (fun w => stateStore_value (prov w)))
    (fun v => modify (on_prov (set_stateStore v))).

Definition isPanelOpenStore : Svelte.Writable bool :=
  Svelte.mkWritable
    (Svelte.mkReadable (fun w => isPanelOpenStore_value (prov w)))
    (fun v => modify (on_prov (set_isPanelOpenStore v))).

Definition isReadyStore : Svelte.Readable bool :=
  Svelte.derived (Svelte.readable stateStore) (fun s => String.eqb s "ready").

(** [target?.method(...)]: nothing is evaluated when the target is [null]. *)
Definition optional_call {A : Type} (target : option Pillar)
  (call : Pillar -> M A) : M (option A) :=
  match target with
  | Some instance => a <- call instance ;; ret (Some a)
  | None => ret None
  end.

(** *** Actions *)

Definition open (options : option OpenOptions) : M unit :=
  p <- Svelte.get (Svelte.readable pillarStore) ;;
  optional_call p (fun i => Sdk.open i options) ;;
  ret tt.

Definition close : M unit :=
  p <- Svelte.get (Svelte.readable pillarStore) ;;
  optional_call p (fun i => Sdk.close i) ;;
  ret tt.

Definition toggle : M unit :=
  p <- Svelte.get (Svelte.readable pillarStore) ;;
  optional_call p (fun i => Sdk.toggle i) ;;
  ret tt.

Definition openArticle (slug : string) : M unit :=
  p <- Svelte.get (Svelte.readable pillarStore) ;;
  optional_call p
    (fun i => Sdk.open i (Some (mkOpenOptions None (Some slug) None None))) ;;
  ret tt.

(** An [async] function without [await]: the body runs at the call. *)
Definition openCategory (slug : string) : M unit :=
  p <- Svelte.get (Svelte.readable pillarStore) ;;
  optional_call p
    (fun i => Sdk.navigate i "category" (Some [("slug", slug)])) ;;
  ret tt.

Definition search (query : string) : M unit :=
  p <- Svelte.get (Svelte.readable pillarStore) ;;
  optional_call p
    (fun i => Sdk.open i (Some (mkOpenOptions None None (Some query) None))) ;;
  ret tt.

Definition navigate (v : string) (params : option (list (string * string)))
  : M unit :=
  p <- Svelte.get (Svelte.readable pillarStore) ;;
  optional_call p (fun i => Sdk.navigate i v params) ;;
  ret tt.

Definition setTheme (theme : JsVal) : M unit :=
  p <- Svelte.get (Svelte.readable pillarStore) ;;
  optional_call p (fun i => Sdk.setTheme i theme) ;;
  ret tt.

Definition setTextSelectionEnabled (enabled : bool) : M unit :=
  p <- Svelte.get (Svelte.readable pillarStore) ;;
  optional_call p (fun i => Sdk.setTextSelectionEnabled i enabled) ;;
  ret tt.

(** [get(pillarStore)?.on(event, callback) ?? (() => {})] *)
Definition on (event : string) (callback : JsVal) : M Thunk :=
  p <- Svelte.get (Svelte.readable pillarStore) ;;
  r <- optional_call p (fun i => Sdk.on i event (L_user callback)) ;;
  match r with
  | Some unsubscribe => ret unsubscribe
  | None => ret T_noop
  end.

(** *** Card renderers *)

Definition cleanupFunctions_push (f : Thunk) : M unit :=
  modify (on_prov (fun p => set_cleanupFunctions (cleanupFunctions p ++ [f]) p)).

(** The renderer registered for one entry of [cards], run by the SDK with a
    container, the action data and the callbacks. *)
Definition render_card (r : Renderer) (container : HTMLElement) (d : JsVal)
  (callbacks : CardCallbacks) : M Thunk :=
  match r with
  | R_card CardComponent =>
      component <- Svelte.mount CardComponent container
                     (mkCardComponentProps d (cb_onConfirm callbacks)
                        (cb_onCancel callbacks) (cb_onStateChange callbacks)) ;;
      modify (on_prov (fun p =>
        set_cardInstances (map_set container component (cardInstances p)) p)) ;;
      ret (T_cardCleanup container)
  end.

(** Calling a [() => void] function. *)
Definition call (f : Thunk) : M unit :=
  match f with
  | T_noop => ret tt
  | T_sdk t => Sdk.unsubscribe t
  | T_cardCleanup container =>
      existingComponent <- asks (fun w => map_get container (cardInstances (prov w))) ;;
      match existingComponent with
      | Some component =>
          Svelte.unmount component ;;
          modify (on_prov (fun p =>
            set_cardInstances (map_delete container (cardInstances p)) p))
      | None => ret tt
      end
  end.

Definition registerCards (instance : Pillar) : M unit :=
  cs <- asks (fun w => cards (props (prov w))) ;;
  match cs with
  | None => ret tt
  | Some entries =>
      forEach (fun entry : string * Component =>
                 let (cardType, CardComponent) := entry in
                 unsubscribe <- Sdk.registerCard instance cardType
                                  (R_card CardComponent) ;;
                 cleanupFunctions_push unsubscribe)
              entries
  end.

(** *** Context *)

Definition contextValue : Types.PillarContextValue :=
  Types.mkPillarContextValue pillarStore stateStore isReadyStore
    isPanelOpenStore open close toggle openArticle openCategory search
    navigate setTheme setTextSelectionEnabled on.

(** *** Listeners *)

(** What a listener does when the SDK invokes it with a payload. *)
Definition run_listener (l : Listener) (payload : JsVal) : M unit :=
  match l with
  | L_panelOpen => Svelte.set isPanelOpenStore true
  | L_panelClose => Svelte.set isPanelOpenStore false
  | L_ready => Svelte.set stateStore "ready"
  | L_error => Svelte.set stateStore "error"
  | L_task f => effect (UserCall f payload)
  | L_user callback => effect (UserCall callback payload)
  end.

(** *** onMount *)

Inductive MountPhase : Type :=
| Finished
| AwaitingInit.

(** The [catch] block. *)
Definition on_init_error (error : JsVal) : M unit :=
  Console.error "[Pillar Svelte] Failed to initialize:" error ;;
  Svelte.set stateStore "error".

(** The [try] block up to and including the call of [Pillar.init]. *)
Definition onMount_start (o : Sdk.InitOutcome) : M MountPhase :=
  try_catch
    (existingInstance <- Sdk.getInstance ;;
     match existingInstance with
     | Some existingInstance =>
         Svelte.set pillarStore (Some existingInstance) ;;
         st <- Sdk.state existingInstance ;;
         Svelte.set stateStore st ;;
         unsubOpen <- Sdk.on existingInstance "panel:open" L_panelOpen ;;
         cleanupFunctions_push unsubOpen ;;
         unsubClose <- Sdk.on existingInstance "panel:close" L_panelClose ;;
         cleanupFunctions_push unsubClose ;;
         registerCards existingInstance ;;
         ret Finished
     | None =>
         key <- asks (fun w => resolvedKey (prov w)) ;;
         cfg <- asks (fun w => config (props (prov w))) ;;
         Sdk.init (mkInitArgs key cfg) o ;;
         ret AwaitingInit
     end)
    (fun error => on_init_error error ;; ret Finished).

(** The rest of the [try] block, from the [await] on. *)
Definition onMount_resume (o : Sdk.InitOutcome) : M unit :=
  try_catch
    (instance <- Sdk.await_init o ;;
     Svelte.set pillarStore (Some instance) ;;
     st <- Sdk.state instance ;;
     Svelte.set stateStore st ;;
     unsubOpen <- Sdk.on instance "panel:open" L_panelOpen ;;
     cleanupFunctions_push unsubOpen ;;
     unsubClose <- Sdk.on instance "panel:close" L_panelClose ;;
     cleanupFunctions_push unsubClose ;;
     unsubReady <- Sdk.on instance "ready" L_ready ;;
     cleanupFunctions_push unsubReady ;;
     unsubError <- Sdk.on instance "error" L_error ;;
     cleanupFunctions_push unsubError ;;
     handler <- asks (fun w => onTask (props (prov w))) ;;
     match handler with
     | Some f =>
         unsubTask <- Sdk.on instance "task:execute" (L_task f) ;;
         cleanupFunctions_push unsubTask
     | None => ret tt
     end ;;
     registerCards instance)
    on_init_error.

(** The whole callback of [onMount], with the initializer settling at once. *)
Definition onMount (o : Sdk.InitOutcome) : M unit :=
  phase <- onMount_start o ;;
  match phase with
  | Finished => ret tt
  | AwaitingInit => onMount_resume o
  end.

(** *** onDestroy *)

Definition onDestroy : M unit :=
  fs <- asks (fun w => cleanupFunctions (prov w)) ;;
  forEach call fs ;;
  modify (on_prov (set_cleanupFunctions [])) ;;
  cs <- asks (fun w => cardInstances (prov w)) ;;
  forEach (fun entry : HTMLElement * Handle => Svelte.unmount (snd entry)) cs ;;
  modify (on_prov (set_cardInstances [])).

(** The template: [{#if children}{@render children()}{/if}]. *)
Definition render (w : World) : option Snippet := children (props (prov w)).

End PillarProvider.

(** ** stores/usePillar.ts *)

Module UsePillar.

(** [{ ...context, onTask }] *)
Record TypedUsePillarResult : Type := mkTypedUsePillarResult {
  context : Types.PillarContextValue;
  onTask : string -> JsVal -> M Thunk
}.

(** The hook, given what [getContext(PILLAR_CONTEXT_KEY)] returns. *)
Definition usePillar (getContext : option Types.PillarContextValue)
  : Outcome TypedUsePillarResult :=
  match getContext with
  | None => Thrown (JError "usePillar must be used within a PillarProvider")
  | Some context =>
      Ok (mkTypedUsePillarResult context
            (fun taskName handler =>
               pillar <- Svelte.get (Svelte.readable (Types.pillar context)) ;;
               match pillar with
               | None => ret T_noop
               | Some pillar => Sdk.onTask pillar taskName handler
               end))
  end.

End UsePillar.

(** ** stores/useHelpPanel.ts *)

Module UseHelpPanel.

Record UseHelpPanelResult : Type := mkUseHelpPanelResult {
  isOpen : Svelte.Readable bool;
  open : option OpenOptions -> M unit;
  close : M unit;
  toggle : M unit;
  openArticle : string -> M unit;
  openCategory : string -> M unit;
  openSearch : option string -> M unit;
  openChat : M unit
}.

Definition useHelpPanel (getContext : option Types.PillarContextValue)
  : Outcome UseHelpPanelResult :=
  match getContext with
  | None => Thrown (JError "useHelpPanel must be used within a PillarProvider")
  | Some context =>
      Ok (mkUseHelpPanelResult
            (Svelte.derived (Svelte.readable (Types.isPanelOpen context))
               (fun isPanelOpen => isPanelOpen))
            (Types.open context)
            (Types.close context)
            (Types.toggle context)
            (Types.openArticle context)
            (Types.openCategory context)
            (fun query =>
               if_truthy query
                 (fun query => Types.search context query)
                 (Types.open context
                    (Some (mkOpenOptions (Some "search") None None None))))
            (Types.navigate context "chat" None))
  end.

End UseHelpPanel.

(** ** Entry points of the adapter *)

(** The ten operations of the context value. *)
Inductive Operation : Type :=
| Op_open (options : option OpenOptions)
| Op_close
| Op_toggle
| Op_openArticle (slug : string)
| Op_openCategory (slug : string)
| Op_search (query : string)
| Op_navigate (v : string) (params : option (list (string * string)))
| Op_setTheme (theme : JsVal)
| Op_setTextSelectionEnabled (enabled : bool)
| Op_on (event : string) (callback : JsVal).

(** Running an operation of a context value; the result of [on] is kept,
    the others return nothing. *)
Definition run_operation (c : Types.PillarContextValue) (op : Operation)
  : M (option Thunk) :=
  match op with
  | Op_open options => Types.open c options ;; ret None
  | Op_close => Types.close c ;; ret None
  | Op_toggle => Types.toggle c ;; ret None
  | Op_openArticle slug => Types.openArticle c slug ;; ret None
  | Op_openCategory slug => Types.openCategory c slug ;; ret None
  | Op_search query => Types.search c query ;; ret None
  | Op_navigate v params => Types.navigate c v params ;; ret None
  | Op_setTheme theme => Types.setTheme c theme ;; ret None
  | Op_setTextSelectionEnabled enabled =>
      Types.setTextSelectionEnabled c enabled ;; ret None
  | Op_on event callback => f <- Types.on c event callback ;; ret (Some f)
  end.

(** Everything that can run code of the adapter once the provider exists:
    a descendant uses the context or a hook, the framework mounts or destroys
    the provider, the SDK invokes a listener or a card renderer, somebody
    calls a returned cleanup. *)
Inductive Action : Type :=
| A_operation (op : Operation)
| A_onTask (taskName : string) (handler : JsVal)
| A_openSearch (query : option string)
| A_openChat
| A_onMount (o : Sdk.InitOutcome)
| A_onDestroy
| A_listener (l : Listener) (payload : JsVal)
| A_renderCard (r : Renderer) (container : HTMLElement) (d : JsVal)
    (callbacks : CardCallbacks)
| A_call (f : Thunk).

Definition discard {A : Type} (c : M A) : M unit := c ;; ret tt.

Definition hook_onTask (taskName : string) (handler : JsVal) : M Thunk :=
  match UsePillar.usePillar (Some PillarProvider.contextValue) with
  | Ok r => UsePillar.onTask r taskName handler
  | Thrown e => throw e
  end.

Definition hook_openSearch (query : option string) : M unit :=
  match UseHelpPanel.useHelpPanel (Some PillarProvider.contextValue) with
  | Ok r => UseHelpPanel.openSearch r query
  | Thrown e => throw e
  end.

Definition hook_openChat : M unit :=
  match UseHelpPanel.useHelpPanel (Some PillarProvider.contextValue) with
  | Ok r => UseHelpPanel.openChat r
  | Thrown e => throw e
  end.

Definition perform (a : Action) : M unit :=
  match a with
  | A_operation op => discard (run_operation PillarProvider.contextValue op)
  | A_onTask taskName handler => discard (hook_onTask taskName handler)
  | A_openSearch query => hook_openSearch query
  | A_openChat => hook_openChat
  | A_onMount o => PillarProvider.onMount o
  | A_onDestroy => PillarProvider.onDestroy
  | A_listener l payload => PillarProvider.run_listener l payload
  | A_renderCard r container d callbacks =>
      discard (PillarProvider.render_card r container d callbacks)
  | A_call f => PillarProvider.call f
  end.

(** The values of the three writable stores. *)
Definition stores (w : World) : option Pillar * string * bool :=
  (pillarStore_value (prov w), stateStore_value (prov w),
   isPanelOpenStore_value (prov w)).

(** The effects that a run added to the trace of [w]. *)
Definition added (w w' : World) : list Effect :=
  skipn (length (trace (env w))) (trace (env w')).

(** The store writes that a run added. *)
Definition written (w w' : World) : list StoreWrite :=
  skipn (length (storeWrites (prov w))) (storeWrites (prov w')).

(** The context value that descendants of the provider find. *)
Definition the_context : Types.PillarContextValue := PillarProvider.contextValue.

(** Relations between the world before and after a run. *)

Definition trace_extends (w w' : World) (suffix : list Effect) : Prop :=
  trace (env w') = trace (env w) ++ suffix.

Definition sdk_untouched (w w' : World) : Prop :=
  Pillar_instance (env w') = Pillar_instance (env w) /\
  Pillar_state (env w') = Pillar_state (env w).

Definition stores_untouched (w w' : World) : Prop :=
  stores w' = stores w /\ storeWrites (prov w') = storeWrites (prov w).

(** Handles tracked in [cardInstances]. *)
Definition tracked (w : World) : list Handle := map snd (cardInstances (prov w)).

(** Keys of a [Map] are pairwise distinct. *)
Definition map_ok (m : list (HTMLElement * Handle)) : Prop := NoDup (map fst m).

(** Effects of tearing down: calling a function the SDK returned, unmounting
    a component. *)
Definition is_teardown (e : Effect) : bool :=
  match e with
  | SdkUnsubscribe _ => true
  | SvelteUnmount _ => true
  | _ => false
  end.

Definition is_warn (e : Effect) : bool :=
  match e with
  | ConsoleWarn _ => true
  | _ => false
  end.

Definition is_subscription (e : Effect) : bool :=
  match e with
  | SdkOn _ _ _ _ => true
  | _ => false
  end.

Definition is_init (e : Effect) : bool :=
  match e with
  | SdkInit _ => true
  | _ => false
  end.

(** The calls of [registerCard] for the entries of [cards], the first of them
    returning the function numbered [n]. *)
Fixpoint registrations (instance : Pillar) (entries : list (string * Component))
  (n : nat) : list Effect :=
  match entries with
  | [] => []
  | (cardType, C) :: rest =>
      SdkRegisterCard instance cardType (R_card C) n
        :: registrations instance rest (S n)
  end.

(** ** Closed forms used in the statements *)

Definition card_entries (w : World) : list (string * Component) :=
  match cards (props (prov w)) with
  | Some entries => entries
  | None => []
  end.

(** The world after [registerCards]: one [registerCard] call per entry, in
    order, each returned function pushed on [cleanupFunctions]. *)
Definition after_registerCards (instance : Pillar)
  (entries : list (string * Component)) (w : World) : World :=
  mkWorld
    (set_cleanupFunctions
       (cleanupFunctions (prov w)
          ++ map T_sdk (seq (fresh (env w)) (length entries)))
       (prov w))
    (mkEnv (Pillar_instance (env w)) (Pillar_state (env w))
       (fresh (env w) + length entries)
       (trace (env w) ++ registrations instance entries (fresh (env w)))).


(** The argument of [Pillar.init] built by the provider. *)
Definition init_args (w : World) : InitArgs :=
  mkInitArgs (resolvedKey (prov w)) (config (props (prov w))).

(** The subscriptions made on the fresh path, the first returned function
    being numbered [n]. *)
Definition fresh_subscriptions (i : Pillar) (n : nat) (handler : option JsVal)
  : list Effect :=
  SdkOn i "panel:open" L_panelOpen n
    :: SdkOn i "panel:close" L_panelClose (S n)
    :: SdkOn i "ready" L_ready (S (S n))
    :: SdkOn i "error" L_error (S (S (S n)))
    :: match handler with
       | Some f => [SdkOn i "task:execute" (L_task f) (S (S (S (S n))))]
       | None => []
       end.

Definition after_reuse (i : Pillar) (w : World) : World :=
  let n := fresh (env w) in
  let entries := card_entries w in
  mkWorld
    (mkProvider (props (prov w)) (resolvedKey (prov w)) (Some i)
       (Pillar_state (env w) i) (isPanelOpenStore_value (prov w))
       (storeWrites (prov w)
          ++ [W_pillar (Some i); W_state (Pillar_state (env w) i)])
       (cleanupFunctions (prov w)
          ++ map T_sdk (seq n (2 + length entries)))
       (cardInstances (prov w)))
    (mkEnv (Pillar_instance (env w)) (Pillar_state (env w))
       (n + (2 + length entries))
       (trace (env w)
          ++ SdkOn i "panel:open" L_panelOpen n
          :: SdkOn i "panel:close" L_panelClose (S n)
          :: registrations i entries (S (S n)))).

Definition after_fresh (i : Pillar) (w : World) : World :=
  let n := fresh (env w) in
  let entries := card_entries w in
  let subs := fresh_subscriptions i n (onTask (props (prov w))) in
  mkWorld
    (mkProvider (props (prov w)) (resolvedKey (prov w)) (Some i)
       (Pillar_state (env w) i) (isPanelOpenStore_value (prov w))
       (storeWrites (prov w)
          ++ [W_pillar (Some i); W_state (Pillar_state (env w) i)])
       (cleanupFunctions (prov w)
          ++ map T_sdk (seq n (length subs + length entries)))
       (cardInstances (prov w)))
    (mkEnv (Pillar_instance (env w)) (Pillar_state (env w))
       (n + (length subs + length entries))
       (trace (env w)
          ++ SdkInit (init_args w)
          :: subs ++ registrations i entries (length subs + n))).

Definition after_failure (error : JsVal) (w : World) : World :=
  mkWorld
    (mkProvider (props (prov w)) (resolvedKey (prov w))
       (pillarStore_value (prov w)) "error" (isPanelOpenStore_value (prov w))
       (storeWrites (prov w) ++ [W_state "error"])
       (cleanupFunctions (prov w)) (cardInstances (prov w)))
    (mkEnv (Pillar_instance (env w)) (Pillar_state (env w)) (fresh (env w))
       (trace (env w)
          ++ [SdkInit (init_args w);
              ConsoleError "[Pillar Svelte] Failed to initialize:" error])).

Definition after_onMount (o : Sdk.InitOutcome) (w : World) : World :=
  match Pillar_instance (env w) with
  | Some existingInstance => after_reuse existingInstance w
  | None =>
      match o with
      | Sdk.InitResolves instance => after_fresh instance w
      | Sdk.InitRejects error => after_failure error w
      | Sdk.InitThrows error => after_failure error w
      end
  end.

(** What calling cleanups and unmounting may do to the world: the SDK's own
    state and the stores stay, the trace grows by teardown effects only, and
    a tracked handle is either still tracked or has been unmounted. *)
Definition tears_down (w w' : World) : Prop :=
  sdk_untouched w w' /\
  stores_untouched w w' /\
  (map_ok (cardInstances (prov w)) -> map_ok (cardInstances (prov w'))) /\
  exists suffix,
    trace_extends w w' suffix /\
    Forall (fun e => is_teardown e = true) suffix /\
    forall h, In h (tracked w) ->
              In h (tracked w') \/ In (SvelteUnmount h) suffix.


(** The SDK at work on its own: it may replace the singleton slot and the
    [state] fields; it neither returns identities nor adds to the trace of
    the adapter's calls. *)
Definition sdk_acts (slot : option Pillar) (st : Pillar -> string) (e : Env)
  : Env :=
  mkEnv slot st (fresh e) (trace e).

(** ** Sample inputs *)

Definition env_without_singleton : Env :=
  mkEnv None (fun _ => "uninitialized") 0 [].

Definition env_with_singleton (st : string) : Env :=
  mkEnv (Some 7) (fun _ => st) 0 [].

Definition sample_props : Props :=
  mkProps (Some "pk_live") None None (Some (JFun 1)) (Some [("confirm", 3)])
    (Some 9).

Definition sample_callbacks : CardCallbacks :=
  mkCardCallbacks (JFun 11) (JFun 12) (JFun 13).

(** ** Store writes, by entry point *)

(** The effect of one [set] call on the values of the three stores. *)
Definition apply_write (s : option Pillar * string * bool) (x : StoreWrite)
  : option Pillar * string * bool :=
  match s, x with
  | (_, st, b), W_pillar v => (v, st, b)
  | (p, _, b), W_state v => (p, v, b)
  | (p, st, _), W_isPanelOpen v => (p, st, v)
  end.

(** The [set] calls on the text of each entry point's code path. *)
Definition store_writes_of (a : Action) (w : World) : list StoreWrite :=
  match a with
  | A_listener L_panelOpen _ => [W_isPanelOpen true]
  | A_listener L_panelClose _ => [W_isPanelOpen false]
  | A_listener L_ready _ => [W_state "ready"]
  | A_listener L_error _ => [W_state "error"]
  | A_onMount o =>
      match Pillar_instance (env w) with
      | Some i => [W_pillar (Some i); W_state (Pillar_state (env w) i)]
      | None =>
          match o with
          | Sdk.InitResolves i =>
              [W_pillar (Some i); W_state (Pillar_state (env w) i)]
          | Sdk.InitRejects _ => [W_state "error"]
          | Sdk.InitThrows _ => [W_state "error"]
          end
      end
  | _ => []
  end.

(** An entry point that makes no store write and keeps the card table. *)
Definition quiet (w w' : World) : Prop :=
  stores_untouched w w' /\
  cardInstances (prov w') = cardInstances (prov w).

(** Everything one provider activation adds to the trace: the component
    script followed by [onMount]. *)
Definition activation_effects (P : Props) (e : Env) (o : Sdk.InitOutcome)
  : list Effect :=
  skipn (length (trace e))
    (trace (env (final (PillarProvider.onMount o (PillarProvider.create P e))))).

(** [config] has no [productKey] property of its own. *)
Definition config_without_productKey (P : Props) : Prop :=
  match config P with
  | Some cfg => ~ In "productKey" (map fst cfg)
  | None => True
  end.

(** A world of a mounted provider whose pillar store holds instance 7. *)
Definition sample_mounted : World :=
  final (PillarProvider.onMount (Sdk.InitResolves 7)
           (PillarProvider.create sample_props (env_with_singleton "ready"))).

(** Modelled from the spec: the SDK's event subscription, as the collaborator
    contract describes it (a listener registered under an event name is
    invoked when the instance emits that event, until the function returned
    at registration is called).  [subscribed] reads the listeners in force
    off the trace; [emit] runs them in registration order. *)
Definition unsubscribed (t : Token) (tr : list Effect) : bool :=
  existsb (fun e => match e with
                    | SdkUnsubscribe t' => Nat.eqb t' t
                    | _ => false
                    end) tr.

Definition subscribed (i : Pillar) (event : string) (tr : list Effect)
  : list Listener :=
  flat_map (fun e => match e with
                     | SdkOn i' event' l t =>
                         if Nat.eqb i' i && String.eqb event' event
                            && negb (unsubscribed t tr)
                         then [l]
                         else []
                     | _ => []
                     end) tr.

Definition emit (i : Pillar) (event : string) (payload : JsVal) : M unit :=
  fun w =>
    forEach (fun l => PillarProvider.run_listener l payload)
      (subscribed i event (trace (env w))) w.

(** Whether an entry point renders a card into the given container. *)
Definition renders_into (container : HTMLElement) (a : Action) : bool :=
  match a with
  | A_renderCard _ c _ _ => Nat.eqb c container
  | _ => false
  end.

(** ** PillarPanel.svelte *)

Module PillarPanel.

(** Calls that leave the panel component, kept in the panel's own log. *)
Inductive PanelEffect : Type :=
| PanelConsoleError (message : string)
| SdkMountPanelTo (i : Pillar) (container : HTMLElement).

(** The variables of one panel component: the context found at creation,
    the element bound by [bind:this], the guard flag.  [readyListener] is
    the identity of the function literal that [onMount] hands to
    [context.on]. *)
Record Panel : Type := mkPanel {
  context : option Types.PillarContextValue;
  containerRef : option HTMLElement;
  hasMounted : bool;
  readyListener : JsVal;
  panel_trace : list PanelEffect
}.

Definition panel_record (x : PanelEffect) (p : Panel) : Panel :=
  mkPanel (context p) (containerRef p) (hasMounted p) (readyListener p)
    (panel_trace p ++ [x]).

(** The component script: the context is looked up, its absence is
    reported. *)
Definition create (getContext : option Types.PillarContextValue)
  (listener : JsVal) : Panel :=
  let p := mkPanel getContext None false listener [] in
  match getContext with
  | None =>
      panel_record
        (PanelConsoleError
           "[Pillar Svelte] PillarPanel must be used within a PillarProvider") p
  | Some _ => p
  end.

(** [bind:this={containerRef}] *)
Definition bind_this (el : HTMLElement) (p : Panel) : Panel :=
  mkPanel (context p) (Some el) (hasMounted p) (readyListener p) (panel_trace p).

(** [pillar.mountPanelTo(containerRef); hasMounted = true] *)
Definition mount_panel (i : Pillar) (el : HTMLElement) (p : Panel) : Panel :=
  mkPanel (context p) (containerRef p) true (readyListener p)
    (panel_trace p ++ [SdkMountPanelTo i el]).

(** The function literal given to [context.on('ready', ...)]. *)
Definition on_ready (c : Types.PillarContextValue) (p : Panel) : M Panel :=
  pillarInstance <- Svelte.get (Svelte.readable (Types.pillar c)) ;;
  match containerRef p, pillarInstance, hasMounted p with
  | Some el, Some i, false => ret (mount_panel i el p)
  | _, _, _ => ret p
  end.

(** The callback of [onMount]; it returns the cleanup, if any, and the
    panel.  Without a context both [get] calls read the placeholder store
    and yield [undefined]. *)
Definition onMount (p : Panel) : M (option Thunk * Panel) :=
  isReady <- match context p with
             | Some c => Svelte.get (Types.isReady c)
             | None => ret false
             end ;;
  pillar <- match context p with
            | Some c => Svelte.get (Svelte.readable (Types.pillar c))
            | None => ret None
            end ;;
  match isReady, pillar, containerRef p, hasMounted p with
  | true, Some i, Some el, false => ret (None, mount_panel i el p)
  | _, _, _, _ =>
      match context p with
      | Some c =>
          if negb isReady
          then unsubscribe <- Types.on c "ready" (readyListener p) ;;
               ret (Some unsubscribe, p)
          else ret (None, p)
      | None => ret (None, p)
      end
  end.

(** What can happen to a panel: the element is bound, the framework runs
    [onMount], the SDK runs the registered listener. *)
Inductive PanelStep : Type :=
| S_bind (el : HTMLElement)
| S_onMount
| S_ready.

(** One step, taken in the world of that moment.  A step that throws (only
    [context.on] can) leaves the panel as it was. *)
Definition panel_step (s : PanelStep) (w : World) (p : Panel) : Panel :=
  match s with
  | S_bind el => bind_this el p
  | S_onMount =>
      match fst (onMount p w) with
      | Ok (_, p') => p'
      | Thrown _ => p
      end
  | S_ready =>
      match context p with
      | Some c =>
          match fst (on_ready c p w) with
          | Ok p' => p'
          | Thrown _ => p
          end
      | None => p
      end
  end.

Fixpoint panel_run (steps : list (PanelStep * World)) (p : Panel) : Panel :=
  match steps with
  | [] => p
  | (s, w) :: rest => panel_run rest (panel_step s w p)
  end.

Definition is_mountPanelTo (x : PanelEffect) : bool :=
  match x with
  | SdkMountPanelTo _ _ => true
  | PanelConsoleError _ => false
  end.

(** How often the panel has called [mountPanelTo]. *)
Definition mount_count (p : Panel) : nat :=
  length (filter is_mountPanelTo (panel_trace p)).

End PillarPanel.

(** ** Sequences of entry points *)

(** The world after a sequence of entry points. *)
Definition run (actions : list Action) (w : World) : World :=
  fold_left (fun w a => final (perform a w)) actions w.

(** The functions in [cleanupFunctions] that the SDK returned. *)
Definition cleanup_tokens (fs : list Thunk) : list Token :=
  flat_map (fun f => match f with
                     | T_sdk t => [t]
                     | _ => []
                     end) fs.

(** Every collected cleanup is a function the SDK returned, at some earlier
    point. *)
Definition cleanups_ok (w : World) : Prop :=
  Forall (fun f => exists t, f = T_sdk t /\ t < fresh (env w))
    (cleanupFunctions (prov w)).

(** The functions the SDK returned in the course of some effects. *)
Definition returned_tokens (effects : list Effect) : list Token :=
  flat_map (fun e => match e with
                     | SdkOn _ _ _ t => [t]
                     | SdkOnTask _ _ _ t => [t]
                     | SdkRegisterCard _ _ _ t => [t]
                     | _ => []
                     end) effects.

(** The world after [onDestroy] when the collected cleanups are functions of
    the SDK: each is called, in the order collected, then each tracked
    handle is unmounted, in insertion order. *)
Definition after_onDestroy (w : World) : World :=
  mkWorld
    (mkProvider (props (prov w)) (resolvedKey (prov w))
       (pillarStore_value (prov w)) (stateStore_value (prov w))
       (isPanelOpenStore_value (prov w)) (storeWrites (prov w)) [] [])
    (mkEnv (Pillar_instance (env w)) (Pillar_state (env w)) (fresh (env w))
       (trace (env w)
          ++ map SdkUnsubscribe (cleanup_tokens (cleanupFunctions (prov w)))
          ++ map SvelteUnmount (tracked w))).



(** The initial values of the stores. *)
Definition initial_stores : option Pillar * string * bool :=
  (None, "uninitialized", false).

(** A panel inside the provider, its element bound. *)
Definition sample_panel : PillarPanel.Panel :=
  PillarPanel.bind_this 50 (PillarPanel.create (Some the_context) (JFun 21)).

(** A run that leaves [cleanupFunctions] as it was and hands out no
    identity twice. *)
Definition keeps_cleanups (w w' : World) : Prop :=
  cleanupFunctions (prov w') = cleanupFunctions (prov w) /\
  fresh (env w) <= fresh (env w').

(** * Properties *)

(** ** Helper lemmas *)

Lemma skipn_length_app {A : Type} (l r : list A) :
  skipn (length l) (l ++ r) = r.
Proof.
  induction l as [|x l IH]; simpl; [reflexivity | exact IH].
Qed.

Lemma added_of_extension (w w' : World) (suffix : list Effect) :
  trace_extends w w' suffix -> added w w' = suffix.
Proof.
  unfold trace_extends, added. intros ->. apply skipn_length_app.
Qed.

Lemma written_of_extension (w w' : World) (suffix : list StoreWrite) :
  storeWrites (prov w') = storeWrites (prov w) ++ suffix ->
  written w w' = suffix.
Proof.
  unfold written. intros ->. apply skipn_length_app.
Qed.

Lemma added_self (w : World) : added w w = [].
Proof.
  apply added_of_extension. unfold trace_extends. now rewrite app_nil_r.
Qed.

Lemma written_self (w : World) : written w w = [].
Proof.
  apply written_of_extension. now rewrite app_nil_r.
Qed.

(** A relation that is reflexive, transitive and established by every
    iteration is established by the loop. *)
Lemma forEach_relates {A : Type} (R : World -> World -> Prop) (f : A -> M unit) :
  (forall w, R w w) ->
  (forall a b c, R a b -> R b c -> R a c) ->
  (forall x w, R w (final (f x w))) ->
  forall l w, R w (final (forEach f l w)).
Proof.
  intros Hrefl Htrans Hstep l.
  induction l as [|x l IH]; intros w; simpl.
  - apply Hrefl.
  - unfold bind, final. specialize (Hstep x w). unfold final in Hstep.
    destruct (f x w) as [[[]|e] w1]; simpl in *.
    + eapply Htrans; [exact Hstep | apply IH].
    + exact Hstep.
Qed.

(** The loop ends normally when every iteration does. *)
Lemma forEach_returns {A : Type} (f : A -> M unit) :
  (forall x w, fst (f x w) = Ok tt) ->
  forall l w, fst (forEach f l w) = Ok tt.
Proof.
  intros Hstep l.
  induction l as [|x l IH]; intros w; simpl.
  - reflexivity.
  - unfold bind. specialize (Hstep x w).
    destruct (f x w) as [[[]|e] w1]; simpl in *.
    + apply IH.
    + discriminate.
Qed.

(** *** The [Map] of card instances *)

Lemma map_get_set_same (k : HTMLElement) (v : Handle) m :
  map_get k (map_set k v m) = Some v.
Proof.
  induction m as [|[k' v'] m IH]; simpl.
  - now rewrite Nat.eqb_refl.
  - destruct (Nat.eqb k' k) eqn:E; simpl; rewrite E; [reflexivity | exact IH].
Qed.

Lemma map_set_keys (k : HTMLElement) (v : Handle) m :
  map fst (map_set k v m) = map fst m \/
  (~ In k (map fst m) /\ map fst (map_set k v m) = map fst m ++ [k]).
Proof.
  induction m as [|[k' v'] m IH]; simpl.
  - right. split; [tauto | reflexivity].
  - destruct (Nat.eqb k' k) eqn:E; simpl.
    + now left.
    + apply Nat.eqb_neq in E.
      destruct IH as [IH | [Hnot IH]]; rewrite IH.
      * now left.
      * right. split; [intros [H | H]; [congruence | tauto] | reflexivity].
Qed.

Lemma map_set_ok (k : HTMLElement) (v : Handle) m :
  map_ok m -> map_ok (map_set k v m).
Proof.
  unfold map_ok. intros Hm.
  destruct (map_set_keys k v m) as [-> | [Hnot ->]]; [exact Hm|].
  apply NoDup_app; [exact Hm | repeat constructor; simpl; tauto |].
  intros x Hx [<- | []]. exact (Hnot Hx).
Qed.

Lemma map_delete_keys_incl (k : HTMLElement) m (x : HTMLElement) :
  In x (map fst (map_delete k m)) -> In x (map fst m).
Proof.
  induction m as [|[k' v'] m IH]; simpl; [tauto|].
  destruct (Nat.eqb k' k); simpl; tauto.
Qed.

Lemma map_delete_ok (k : HTMLElement) m :
  map_ok m -> map_ok (map_delete k m).
Proof.
  unfold map_ok.
  induction m as [|[k' v'] m IH]; simpl; intros Hm; [exact Hm|].
  inversion Hm as [|? ? Hnot Hrest]; subst.
  destruct (Nat.eqb k' k); simpl; [exact Hrest|].
  constructor; [|now apply IH].
  intros H. apply Hnot. eapply map_delete_keys_incl; exact H.
Qed.

Lemma map_get_absent (k : HTMLElement) m :
  ~ In k (map fst m) -> map_get k m = None.
Proof.
  induction m as [|[k' v'] m IH]; simpl; intros H; [reflexivity|].
  destruct (Nat.eqb k' k) eqn:E.
  - apply Nat.eqb_eq in E. tauto.
  - apply IH. tauto.
Qed.

Lemma map_get_delete_same (k : HTMLElement) m :
  map_ok m -> map_get k (map_delete k m) = None.
Proof.
  unfold map_ok.
  induction m as [|[k' v'] m IH]; simpl; intros Hm; [reflexivity|].
  inversion Hm as [|? ? Hnot Hrest]; subst.
  destruct (Nat.eqb k' k) eqn:E; simpl.
  - apply Nat.eqb_eq in E; subst. now apply map_get_absent.
  - rewrite E. now apply IH.
Qed.

Lemma map_get_tracked (k : HTMLElement) (h : Handle) m :
  map_get k m = Some h -> In h (map snd m).
Proof.
  induction m as [|[k' v'] m IH]; simpl; [discriminate|].
  destruct (Nat.eqb k' k); intros H.
  - left. congruence.
  - right. now apply IH.
Qed.

(** Deleting a key drops the handle that [get] returns for it and no other. *)
Lemma map_delete_drops (k : HTMLElement) (h : Handle) m :
  map_get k m = Some h ->
  forall h', In h' (map snd m) -> h' = h \/ In h' (map snd (map_delete k m)).
Proof.
  induction m as [|[k' v'] m IH]; simpl; [discriminate|].
  destruct (Nat.eqb k' k); intros H h' [Hh | Hh].
  - left. congruence.
  - now right.
  - right. now left.
  - destruct (IH H h' Hh) as [-> | Hin]; [now left | right; now right].
Qed.

(** *** Running [registerCards] *)

Lemma registrations_length instance entries n :
  length (registrations instance entries n) = length entries.
Proof.
  revert n. induction entries as [|[cardType C] rest IH]; intros n; simpl;
    [reflexivity | now rewrite IH].
Qed.

Lemma registerCards_loop (instance : Pillar) entries : forall w,
  forEach (fun entry : string * Component =>
             let (cardType, CardComponent) := entry in
             unsubscribe <- Sdk.registerCard instance cardType
                              (R_card CardComponent) ;;
             PillarProvider.cleanupFunctions_push unsubscribe)
          entries w
  = (Ok tt, after_registerCards instance entries w).
Proof.
  induction entries as [|[cardType C] rest IH]; intros [p e].
  - destruct p, e. cbn. unfold after_registerCards, set_cleanupFunctions. cbn.
    now rewrite !app_nil_r, Nat.add_0_r.
  - cbn [forEach]. unfold bind at 1. cbn. rewrite IH.
    destruct p, e. unfold after_registerCards, set_cleanupFunctions. cbn.
    rewrite <- !app_assoc. cbn. now rewrite Nat.add_succ_r.
Qed.

Lemma registerCards_run (instance : Pillar) (w : World) :
  PillarProvider.registerCards instance w
  = (Ok tt, after_registerCards instance (card_entries w) w).
Proof.
  unfold PillarProvider.registerCards, card_entries, bind, asks.
  destruct (cards (props (prov w))) as [entries|].
  - apply registerCards_loop.
  - destruct w as [p e]; destruct p, e. unfold ret, after_registerCards,
      set_cleanupFunctions. cbn. now rewrite !app_nil_r, Nat.add_0_r.
Qed.

(** *** Running [onMount] *)

Ltac world_fields :=
  cbv [on_prov on_env record with_trace with_fresh set_pillarStore
       set_stateStore set_isPanelOpenStore set_cleanupFunctions
       set_cardInstances ret modify asks effect final fst snd
       prov env props resolvedKey pillarStore_value stateStore_value
       isPanelOpenStore_value storeWrites cleanupFunctions cardInstances
       Pillar_instance Pillar_state fresh trace].

Ltac world_eq :=
  apply (f_equal (pair (Ok tt)));
  apply f_equal2; [reflexivity | apply f_equal2; [lia | reflexivity]].

Lemma onMount_run (o : Sdk.InitOutcome) (w : World) :
  PillarProvider.onMount o w = (Ok tt, after_onMount o w).
Proof.
  destruct w as [p e]; destruct p, e.
  unfold after_onMount. cbn [env Pillar_instance].
  destruct Pillar_instance0 as [i|].
  - unfold PillarProvider.onMount, PillarProvider.onMount_start, try_catch.
    unfold bind. cbn -[PillarProvider.registerCards].
    rewrite registerCards_run.
    unfold after_registerCards, after_reuse, card_entries. world_fields.
    rewrite <- !app_assoc. world_eq.
  - destruct o as [i|error|error].
    + unfold PillarProvider.onMount, PillarProvider.onMount_start,
        PillarProvider.onMount_resume, try_catch.
      unfold bind. cbn -[PillarProvider.registerCards].
      destruct (onTask props0) as [f|] eqn:Htask;
        cbn -[PillarProvider.registerCards];
        rewrite registerCards_run;
        unfold after_registerCards, after_fresh, card_entries, init_args;
        world_fields; rewrite ?Htask; cbn [fresh_subscriptions length];
        rewrite <- !app_assoc; world_eq.
    + unfold after_failure, init_args. cbn. world_fields.
      now rewrite <- app_assoc.
    + unfold after_failure, init_args. cbn. world_fields.
      now rewrite <- app_assoc.
Qed.

(** *** Tearing down *)

Lemma tears_down_refl (w : World) : tears_down w w.
Proof.
  repeat split; try tauto.
  exists []. unfold trace_extends. rewrite app_nil_r.
  repeat split; [constructor | now left].
Qed.

Lemma tears_down_trans (a b c : World) :
  tears_down a b -> tears_down b c -> tears_down a c.
Proof.
  intros [[Hi1 Hs1] [[Hv1 Hw1] [Hm1 [s1 [He1 [Hf1 Ht1]]]]]]
         [[Hi2 Hs2] [[Hv2 Hw2] [Hm2 [s2 [He2 [Hf2 Ht2]]]]]].
  repeat split; try congruence; [tauto|].
  exists (s1 ++ s2). unfold trace_extends in *.
  repeat split.
  - rewrite He2, He1. now rewrite app_assoc.
  - apply Forall_app. now split.
  - intros h Hh. rewrite in_app_iff.
    destruct (Ht1 h Hh) as [Hb | Hu]; [|tauto].
    destruct (Ht2 h Hb); tauto.
Qed.

Lemma call_returns (f : Thunk) (w : World) :
  fst (PillarProvider.call f w) = Ok tt.
Proof.
  destruct f as [|t|container]; try reflexivity.
  unfold PillarProvider.call, bind, asks.
  now destruct (map_get container (cardInstances (prov w))).
Qed.

Lemma call_tears_down (f : Thunk) (w : World) :
  tears_down w (final (PillarProvider.call f w)).
Proof.
  destruct f as [|t|container].
  - apply tears_down_refl.
  - repeat split; try tauto.
    exists [SdkUnsubscribe t]. repeat split.
    + repeat constructor.
    + now left.
  - unfold PillarProvider.call, bind, asks, final.
    destruct (map_get container (cardInstances (prov w))) as [h|] eqn:Hget;
      [|apply tears_down_refl].
    cbn. repeat split.
    + apply map_delete_ok.
    + exists [SvelteUnmount h]. repeat split.
      * repeat constructor.
      * intros h' Hh'. unfold tracked in *. cbn.
        destruct (map_delete_drops _ _ _ Hget h' Hh') as [-> | Hin];
          [right; now left | now left].
Qed.

(** The sweep over [cardInstances]: one [unmount] per entry, in order. *)
Lemma unmount_all_run (cs : list (HTMLElement * Handle)) : forall w,
  forEach (fun entry : HTMLElement * Handle => Svelte.unmount (snd entry)) cs w
  = (Ok tt,
     mkWorld (prov w)
       (mkEnv (Pillar_instance (env w)) (Pillar_state (env w)) (fresh (env w))
          (trace (env w) ++ map (fun entry => SvelteUnmount (snd entry)) cs))).
Proof.
  induction cs as [|[c h] cs IH]; intros [p e]; destruct e.
  - cbn. now rewrite app_nil_r.
  - cbn [forEach]. unfold bind at 1. cbn. rewrite IH. cbn.
    now rewrite <- app_assoc.
Qed.

(** [onDestroy] as a whole. *)
Lemma onDestroy_spec (w : World) :
  exists w',
    PillarProvider.onDestroy w = (Ok tt, w') /\
    sdk_untouched w w' /\
    stores_untouched w w' /\
    cleanupFunctions (prov w') = [] /\
    cardInstances (prov w') = [] /\
    exists suffix,
      trace_extends w w' suffix /\
      Forall (fun e => is_teardown e = true) suffix /\
      forall h, In h (tracked w) -> In (SvelteUnmount h) suffix.
Proof.
  unfold PillarProvider.onDestroy, bind, asks, modify.
  pose proof (forEach_returns PillarProvider.call call_returns
                (cleanupFunctions (prov w)) w) as Hret.
  pose proof (forEach_relates tears_down PillarProvider.call tears_down_refl
                tears_down_trans call_tears_down
                (cleanupFunctions (prov w)) w) as Hrel.
  unfold final in Hrel.
  destruct (forEach PillarProvider.call (cleanupFunctions (prov w)) w)
    as [out w1]; cbn in Hret, Hrel; subst out.
  destruct Hrel as [[Hi Hs] [[Hv Hw] [_ [s1 [He [Hf Ht]]]]]].
  rewrite unmount_all_run.
  eexists; split; [reflexivity|].
  destruct w1 as [p1 e1]; destruct p1, e1. cbn in *.
  repeat split; try assumption.
  exists (s1 ++ map (fun entry : HTMLElement * Handle => SvelteUnmount (snd entry))
                 cardInstances0).
  unfold trace_extends in *. cbn in *. repeat split.
  - rewrite He. now rewrite app_assoc.
  - apply Forall_app. split; [exact Hf|].
    apply Forall_forall. intros e Hin. apply in_map_iff in Hin.
    destruct Hin as [entry [<- _]]. reflexivity.
  - intros h Hh. rewrite in_app_iff.
    destruct (Ht h Hh) as [Hin | Hin]; [right | now left].
    unfold tracked in Hin. cbn in Hin. apply in_map_iff in Hin.
    destruct Hin as [entry [<- Hentry]].
    apply in_map_iff. now exists entry.
Qed.

(** *** Creating the provider *)

Lemma create_prov (P : Props) (e : Env) :
  prov (PillarProvider.create P e)
  = mkProvider P (nullish_or (productKey P) (helpCenter P))
      None "uninitialized" false [] [] [].
Proof.
  unfold PillarProvider.create.
  now destruct (truthy (helpCenter P) && negb (truthy (productKey P))).
Qed.

Lemma create_sdk (P : Props) (e : Env) :
  Pillar_instance (env (PillarProvider.create P e)) = Pillar_instance e /\
  Pillar_state (env (PillarProvider.create P e)) = Pillar_state e /\
  fresh (env (PillarProvider.create P e)) = fresh e.
Proof.
  unfold PillarProvider.create.
  now destruct (truthy (helpCenter P) && negb (truthy (productKey P))).
Qed.

Lemma create_trace (P : Props) (e : Env) :
  trace (env (PillarProvider.create P e))
  = trace e
      ++ (if truthy (helpCenter P) && negb (truthy (productKey P))
          then [ConsoleWarn PillarProvider.deprecation_message]
          else []).
Proof.
  unfold PillarProvider.create.
  destruct (truthy (helpCenter P) && negb (truthy (productKey P))); cbn;
    [reflexivity | now rewrite app_nil_r].
Qed.

(** *** Effects of [onMount], by kind *)

Lemma filter_registrations (f : Effect -> bool) instance entries :
  (forall cardType r t, f (SdkRegisterCard instance cardType r t) = false) ->
  forall n, filter f (registrations instance entries n) = [].
Proof.
  intros Hf. induction entries as [|[cardType C] rest IH]; intros n; simpl.
  - reflexivity.
  - rewrite Hf. apply IH.
Qed.

Lemma added_after_reuse (i : Pillar) (w : World) :
  added w (after_reuse i w)
  = SdkOn i "panel:open" L_panelOpen (fresh (env w))
      :: SdkOn i "panel:close" L_panelClose (S (fresh (env w)))
      :: registrations i (card_entries w) (S (S (fresh (env w)))).
Proof.
  now apply added_of_extension.
Qed.

Lemma added_after_fresh (i : Pillar) (w : World) :
  added w (after_fresh i w)
  = SdkInit (init_args w)
      :: fresh_subscriptions i (fresh (env w)) (onTask (props (prov w)))
      ++ registrations i (card_entries w)
           (length (fresh_subscriptions i (fresh (env w))
                      (onTask (props (prov w))))
            + fresh (env w)).
Proof.
  now apply added_of_extension.
Qed.

Lemma added_after_failure (error : JsVal) (w : World) :
  added w (after_failure error w)
  = [SdkInit (init_args w);
     ConsoleError "[Pillar Svelte] Failed to initialize:" error].
Proof.
  now apply added_of_extension.
Qed.

(** ** Pass-through operations *)

(** C1.  Each of the ten operations of the provider's context value, for
    every argument: while the pillar store holds [null] the call returns
    normally, leaves the world as it was (nothing reaches the SDK, no store
    changes) and [on] returns the no-op function; while the store holds an
    instance the call makes exactly one call on that instance, of the method
    the operation stands for and with the caller's values in it, and [on]
    returns what the SDK's [on] returned. *)
Theorem passthrough_operations (w : World) :
  match pillarStore_value (prov w) with
  | None =>
      forall op : Operation,
        run_operation the_context op w =
          (Ok (match op with Op_on _ _ => Some T_noop | _ => None end), w)
  | Some instance =>
      (forall options,
          Types.open the_context options w
          = (Ok tt, record (SdkOpen instance options) w)) /\
      Types.close the_context w = (Ok tt, record (SdkClose instance) w) /\
      Types.toggle the_context w = (Ok tt, record (SdkToggle instance) w) /\
      (forall slug,
          Types.openArticle the_context slug w
          = (Ok tt,
             record (SdkOpen instance
                       (Some (mkOpenOptions None (Some slug) None None))) w)) /\
      (forall slug,
          Types.openCategory the_context slug w
          = (Ok tt,
             record (SdkNavigate instance "category" (Some [("slug", slug)])) w)) /\
      (forall query,
          Types.search the_context query w
          = (Ok tt,
             record (SdkOpen instance
                       (Some (mkOpenOptions None None (Some query) None))) w)) /\
      (forall v params,
          Types.navigate the_context v params w
          = (Ok tt, record (SdkNavigate instance v params) w)) /\
      (forall theme,
          Types.setTheme the_context theme w
          = (Ok tt, record (SdkSetTheme instance theme) w)) /\
      (forall enabled,
          Types.setTextSelectionEnabled the_context enabled w
          = (Ok tt, record (SdkSetTextSelectionEnabled instance enabled) w)) /\
      (forall event callback,
          Types.on the_context event callback w
          = (Ok (T_sdk (fresh (env w))),
             record (SdkOn instance event (L_user callback) (fresh (env w)))
               (on_env (with_fresh (S (fresh (env w)))) w)))
  end.
Proof.
  destruct (pillarStore_value (prov w)) eqn:Hstore.
  - repeat split; intros;
      cbv [the_context PillarProvider.contextValue Types.open Types.close
           Types.toggle Types.openArticle Types.openCategory Types.search
           Types.navigate Types.setTheme Types.setTextSelectionEnabled Types.on
           PillarProvider.open PillarProvider.close PillarProvider.toggle
           PillarProvider.openArticle PillarProvider.openCategory
           PillarProvider.search PillarProvider.navigate PillarProvider.setTheme
           PillarProvider.setTextSelectionEnabled PillarProvider.on
           PillarProvider.pillarStore Svelte.get Svelte.readable Svelte.current
           asks bind];
      rewrite Hstore; reflexivity.
  - intros op; destruct op;
      cbv [run_operation the_context PillarProvider.contextValue Types.open
           Types.close Types.toggle Types.openArticle Types.openCategory
           Types.search Types.navigate Types.setTheme
           Types.setTextSelectionEnabled Types.on
           PillarProvider.open PillarProvider.close PillarProvider.toggle
           PillarProvider.openArticle PillarProvider.openCategory
           PillarProvider.search PillarProvider.navigate PillarProvider.setTheme
           PillarProvider.setTextSelectionEnabled PillarProvider.on
           PillarProvider.pillarStore Svelte.get Svelte.readable Svelte.current
           asks bind];
      rewrite Hstore; reflexivity.
Qed.

(** ** Initialization failure *)

(** C2.  Whenever the provider mounts without an existing singleton and the
    initializer fails, by rejecting its promise or by throwing, [onMount]
    still returns normally; the call of the initializer is followed by one
    [console.error] with the error, the state store is set to ['error'] by
    the one store write of the run, nothing else changes, and the template
    renders the children as before. *)
Theorem init_failure_is_contained (w : World) (error : JsVal)
  (o : Sdk.InitOutcome) :
  Pillar_instance (env w) = None ->
  o = Sdk.InitRejects error \/ o = Sdk.InitThrows error ->
  exists w',
    PillarProvider.onMount o w = (Ok tt, w') /\
    added w w'
    = [SdkInit (init_args w);
       ConsoleError "[Pillar Svelte] Failed to initialize:" error] /\
    stateStore_value (prov w') = "error" /\
    written w w' = [W_state "error"] /\
    pillarStore_value (prov w') = pillarStore_value (prov w) /\
    PillarProvider.render w' = children (props (prov w)).
Proof.
  intros Hnone Ho. exists (after_onMount o w).
  split; [apply onMount_run|].
  unfold after_onMount. rewrite Hnone.
  destruct Ho as [-> | ->];
    (split; [apply added_after_failure|]);
    (split; [reflexivity|]);
    (split; [now apply written_of_extension|]);
    split; reflexivity.
Qed.

Lemma init_failure_witness :
  exists w',
    PillarProvider.onMount (Sdk.InitRejects (JError "network down"))
      (PillarProvider.create sample_props env_without_singleton)
    = (Ok tt, w') /\
    added (PillarProvider.create sample_props env_without_singleton) w'
    = [SdkInit (mkInitArgs (Some "pk_live") None);
       ConsoleError "[Pillar Svelte] Failed to initialize:"
         (JError "network down")] /\
    stateStore_value (prov w') = "error" /\
    written (PillarProvider.create sample_props env_without_singleton) w'
    = [W_state "error"] /\
    pillarStore_value (prov w') = None /\
    PillarProvider.render w' = Some 9.
Proof.
  apply (init_failure_is_contained
           (PillarProvider.create sample_props env_without_singleton)
           (JError "network down") (Sdk.InitRejects (JError "network down"))).
  - reflexivity.
  - left. reflexivity.
Defined.

(** ** Remounting *)

(** Whether [onMount] has to wait for the initializer. *)
Lemma onMount_start_phase (o : Sdk.InitOutcome) (w : World) :
  fst (PillarProvider.onMount_start o w)
  = Ok (match Pillar_instance (env w) with
        | Some _ => PillarProvider.Finished
        | None =>
            match o with
            | Sdk.InitThrows _ => PillarProvider.Finished
            | _ => PillarProvider.AwaitingInit
            end
        end).
Proof.
  destruct w as [p e]; destruct p, e. cbn [env Pillar_instance].
  destruct Pillar_instance0 as [i|].
  - unfold PillarProvider.onMount_start, try_catch, bind.
    cbn -[PillarProvider.registerCards]. now rewrite registerCards_run.
  - now destruct o.
Qed.

(** While the initializer is pending the stores keep their initial values
    and nothing but the call of the initializer has left the adapter. *)
Lemma pending_initialization (P : Props) (e : Env) (instance : Pillar) :
  Pillar_instance e = None ->
  let w := PillarProvider.create P e in
  let pending := PillarProvider.onMount_start (Sdk.InitResolves instance) w in
  fst pending = Ok PillarProvider.AwaitingInit /\
  stores (snd pending) = (None, "uninitialized", false) /\
  added w (snd pending) = [SdkInit (init_args w)].
Proof.
  intros Hnone w pending.
  assert (Hslot : Pillar_instance (env w) = None)
    by (unfold w; destruct (create_sdk P e) as [-> _]; exact Hnone).
  unfold pending, PillarProvider.onMount_start, try_catch, bind,
    Sdk.getInstance, asks.
  rewrite Hslot. cbn. repeat split.
  - unfold stores, w. cbn. now rewrite create_prov.
  - now apply added_of_extension.
Qed.

(** C3.  A first provider is created and mounted, the SDK holds its
    singleton [instance], the provider is destroyed, the SDK goes on (keeping
    the singleton, its state field possibly changing), a second provider is
    created and mounted.  Destroying returns normally, leaves the singleton
    slot and the state fields alone and only calls cleanups and unmounts.
    The second provider starts at ['uninitialized']; its mount finishes at
    once on the reuse branch, returns normally without calling the
    initializer, and afterwards its pillar store holds the singleton and its
    state store equals the singleton's current state field. *)
Theorem remount_reuses_singleton (P1 P2 : Props) (e0 : Env)
  (o1 o2 : Sdk.InitOutcome) (instance : Pillar) (st1 st2 : Pillar -> string) :
  let mounted1 :=
    final (PillarProvider.onMount o1 (PillarProvider.create P1 e0)) in
  let w1 := on_env (sdk_acts (Some instance) st1) mounted1 in
  let w2 := final (PillarProvider.onDestroy w1) in
  let w3 :=
    PillarProvider.create P2 (sdk_acts (Pillar_instance (env w2)) st2 (env w2)) in
  let w4 := final (PillarProvider.onMount o2 w3) in
  fst (PillarProvider.onDestroy w1) = Ok tt /\
  Pillar_instance (env w2) = Some instance /\
  Pillar_state (env w2) = st1 /\
  Forall (fun e => is_teardown e = true) (added w1 w2) /\
  stateStore_value (prov w3) = "uninitialized" /\
  fst (PillarProvider.onMount_start o2 w3) = Ok PillarProvider.Finished /\
  PillarProvider.onMount o2 w3 = (Ok tt, w4) /\
  pillarStore_value (prov w4) = Some instance /\
  stateStore_value (prov w4) = Pillar_state (env w4) instance /\
  Pillar_state (env w4) = st2 /\
  filter is_init (added w3 w4) = [].
Proof.
  intros mounted1 w1 w2 w3 w4.
  destruct (onDestroy_spec w1) as [w2' [Hrun [[Hslot Hst] [_ [_ [_ Htrace]]]]]].
  assert (Hw2 : w2 = w2') by (unfold w2, final; now rewrite Hrun).
  destruct Htrace as [suffix [Hext [Hall _]]].
  assert (Hslot2 : Pillar_instance (env w2) = Some instance)
    by (rewrite Hw2, Hslot; reflexivity).
  assert (Hslot3 : Pillar_instance (env w3) = Some instance).
  { unfold w3. destruct (create_sdk P2
      (sdk_acts (Pillar_instance (env w2)) st2 (env w2))) as [-> _].
    exact Hslot2. }
  assert (Hst3 : Pillar_state (env w3) = st2).
  { unfold w3. destruct (create_sdk P2
      (sdk_acts (Pillar_instance (env w2)) st2 (env w2))) as [_ [-> _]].
    reflexivity. }
  assert (Hw4 : w4 = after_reuse instance w3).
  { unfold w4, final. rewrite onMount_run. unfold after_onMount.
    now rewrite Hslot3. }
  repeat split.
  - now rewrite Hrun.
  - exact Hslot2.
  - rewrite Hw2, Hst. reflexivity.
  - rewrite Hw2. now rewrite (added_of_extension _ _ _ Hext).
  - unfold w3. now rewrite create_prov.
  - rewrite onMount_start_phase. now rewrite Hslot3.
  - rewrite onMount_run. unfold after_onMount. now rewrite Hslot3, Hw4.
  - now rewrite Hw4.
  - now rewrite Hw4.
  - rewrite Hw4. exact Hst3.
  - rewrite Hw4, added_after_reuse. cbn. now apply filter_registrations.
Qed.

(** ** Listeners *)

(** On the fresh path the four listeners, and the task listener when the
    [onTask] prop is given, are registered in this order. *)
Lemma fresh_path_subscriptions (w : World) (instance : Pillar) :
  Pillar_instance (env w) = None ->
  let w' := final (PillarProvider.onMount (Sdk.InitResolves instance) w) in
  filter is_subscription (added w w')
  = fresh_subscriptions instance (fresh (env w)) (onTask (props (prov w))) /\
  cleanupFunctions (prov w')
  = cleanupFunctions (prov w)
      ++ map T_sdk
           (seq (fresh (env w))
              (length (fresh_subscriptions instance (fresh (env w))
                         (onTask (props (prov w))))
               + length (card_entries w))).
Proof.
  intros Hnone w'. unfold w', final. rewrite onMount_run.
  unfold after_onMount. rewrite Hnone. cbn [snd]. split; [|reflexivity].
  rewrite added_after_fresh. cbn [filter is_subscription].
  rewrite filter_app, filter_registrations by reflexivity.
  rewrite app_nil_r.
  unfold fresh_subscriptions.
  now destruct (onTask (props (prov w))).
Qed.

(** Each of the four listeners makes one store write. *)
Lemma listener_writes_one_store (w : World) (payload : JsVal) :
  PillarProvider.run_listener L_panelOpen payload w
  = (Ok tt, on_prov (set_isPanelOpenStore true) w) /\
  PillarProvider.run_listener L_panelClose payload w
  = (Ok tt, on_prov (set_isPanelOpenStore false) w) /\
  PillarProvider.run_listener L_ready payload w
  = (Ok tt, on_prov (set_stateStore "ready") w) /\
  PillarProvider.run_listener L_error payload w
  = (Ok tt, on_prov (set_stateStore "error") w).
Proof.
  repeat split.
Qed.

(** C4.  When the provider mounts while the singleton exists, the only
    subscriptions it makes are the ones for ['panel:open'] and
    ['panel:close']; no listener is registered for ['ready'] or ['error'].
    Both returned functions are collected in [cleanupFunctions]. *)
Theorem reuse_path_subscriptions (w : World) (o : Sdk.InitOutcome)
  (instance : Pillar) :
  Pillar_instance (env w) = Some instance ->
  let w' := final (PillarProvider.onMount o w) in
  filter is_subscription (added w w')
  = [SdkOn instance "panel:open" L_panelOpen (fresh (env w));
     SdkOn instance "panel:close" L_panelClose (S (fresh (env w)))] /\
  cleanupFunctions (prov w')
  = cleanupFunctions (prov w)
      ++ map T_sdk (seq (fresh (env w)) (2 + length (card_entries w))).
Proof.
  intros Hsome w'. unfold w', final. rewrite onMount_run.
  unfold after_onMount. rewrite Hsome. cbn [snd]. split; [|reflexivity].
  rewrite added_after_reuse. cbn [filter is_subscription].
  now rewrite filter_registrations.
Qed.

Lemma reuse_path_subscriptions_witness :
  let w := PillarProvider.create sample_props (env_with_singleton "initializing") in
  let w' := final (PillarProvider.onMount (Sdk.InitResolves 7) w) in
  filter is_subscription (added w w')
  = [SdkOn 7 "panel:open" L_panelOpen 0; SdkOn 7 "panel:close" L_panelClose 1] /\
  cleanupFunctions (prov w') = [T_sdk 0; T_sdk 1; T_sdk 2].
Proof.
  apply (reuse_path_subscriptions
           (PillarProvider.create sample_props (env_with_singleton "initializing"))
           (Sdk.InitResolves 7) 7).
  reflexivity.
Defined.

(** The consequence, with the SDK delivering events to the listeners in
    force: a provider mounted on the reuse path while the instance is still
    initializing does not see the later ['ready'] event, a provider mounted
    on the fresh path does. *)
Lemma ready_event_after_remount :
  let remounted :=
    final (PillarProvider.onMount (Sdk.InitResolves 7)
             (PillarProvider.create sample_props
                (env_with_singleton "initializing"))) in
  let later :=
    final (emit 7 "ready" JUndefined
             (on_env (sdk_acts (Some 7) (fun _ => "ready")) remounted)) in
  stateStore_value (prov remounted) = "initializing" /\
  subscribed 7 "ready" (trace (env remounted)) = [] /\
  Pillar_state (env later) 7 = "ready" /\
  stateStore_value (prov later) = "initializing".
Proof.
  repeat split.
Qed.

Lemma ready_event_after_fresh_mount :
  let mounted :=
    final (PillarProvider.onMount (Sdk.InitResolves 7)
             (PillarProvider.create sample_props env_without_singleton)) in
  let later :=
    final (emit 7 "ready" JUndefined
             (on_env (sdk_acts (Some 7) (fun _ => "ready")) mounted)) in
  subscribed 7 "ready" (trace (env mounted)) = [L_ready] /\
  stateStore_value (prov later) = "ready".
Proof.
  repeat split.
Qed.

(** ** Cards *)

Lemma render_card_run (C : Component) (container : HTMLElement) (d : JsVal)
  (callbacks : CardCallbacks) (w : World) :
  PillarProvider.render_card (R_card C) container d callbacks w
  = (Ok (T_cardCleanup container),
     on_prov (fun p =>
        set_cardInstances
          (map_set container (fresh (env w)) (cardInstances p)) p)
       (record
          (SvelteMount C container
             (mkCardComponentProps d (cb_onConfirm callbacks)
                (cb_onCancel callbacks) (cb_onStateChange callbacks))
             (fresh (env w)))
          (on_env (with_fresh (S (fresh (env w)))) w))).
Proof.
  reflexivity.
Qed.

Lemma card_cleanup_run (container : HTMLElement) (h : Handle) (w : World) :
  map_get container (cardInstances (prov w)) = Some h ->
  PillarProvider.call (T_cardCleanup container) w
  = (Ok tt,
     on_prov (fun p =>
        set_cardInstances (map_delete container (cardInstances p)) p)
       (record (SvelteUnmount h) w)).
Proof.
  intros Hget. unfold PillarProvider.call, bind, asks. now rewrite Hget.
Qed.

Lemma in_registrations instance entries cardType C : forall n,
  In (cardType, C) entries ->
  exists t, In (SdkRegisterCard instance cardType (R_card C) t)
              (registrations instance entries n).
Proof.
  induction entries as [|[cardType' C'] rest IH]; intros n; simpl; [tauto|].
  intros [Heq | Hin].
  - inversion Heq; subst. exists n. now left.
  - destruct (IH (S n) Hin) as [t Ht]. exists t. now right.
Qed.

(** C5, as amended.  [registerCards] makes one [registerCard] call per entry of [cards],
    handing over the renderer of that entry's component.  When that renderer
    is run with a container, data and callbacks, the component is mounted
    with that container as target and with exactly the data and the three
    callbacks as props, and the handle is tracked under the container.  The
    returned cleanup unmounts that handle and removes the entry, when called
    at once and also later, as long as the container is still tracked with
    that handle.  If the cleanup is never called, [onDestroy] unmounts the
    handle; in any world [onDestroy] unmounts every tracked handle and
    leaves the table empty. *)
Theorem card_rendering (w : World) (instance : Pillar) (C : Component)
  (container : HTMLElement) (d : JsVal) (callbacks : CardCallbacks) :
  map_ok (cardInstances (prov w)) ->
  let h := fresh (env w) in
  let rendered := PillarProvider.render_card (R_card C) container d callbacks w in
  let w1 := snd rendered in
  let cleaned := PillarProvider.call (T_cardCleanup container) w1 in
  let w2 := snd cleaned in
  (forall cardType C',
      In (cardType, C') (card_entries w) ->
      exists t,
        In (SdkRegisterCard instance cardType (R_card C') t)
           (added w (final (PillarProvider.registerCards instance w)))) /\
  fst rendered = Ok (T_cardCleanup container) /\
  added w w1
  = [SvelteMount C container
       (mkCardComponentProps d (cb_onConfirm callbacks) (cb_onCancel callbacks)
          (cb_onStateChange callbacks)) h] /\
  map_get container (cardInstances (prov w1)) = Some h /\
  fst cleaned = Ok tt /\
  added w1 w2 = [SvelteUnmount h] /\
  map_get container (cardInstances (prov w2)) = None /\
  (forall later,
      map_ok (cardInstances (prov later)) ->
      map_get container (cardInstances (prov later)) = Some h ->
      let r := PillarProvider.call (T_cardCleanup container) later in
      fst r = Ok tt /\
      added later (snd r) = [SvelteUnmount h] /\
      map_get container (cardInstances (prov (snd r))) = None) /\
  fst (PillarProvider.onDestroy w1) = Ok tt /\
  In (SvelteUnmount h) (added w1 (final (PillarProvider.onDestroy w1))) /\
  forall w',
    cardInstances (prov (final (PillarProvider.onDestroy w'))) = [] /\
    forall h', In h' (tracked w') ->
               In (SvelteUnmount h')
                  (added w' (final (PillarProvider.onDestroy w'))).
Proof.
  intros Hok h rendered w1 cleaned w2.
  assert (Hteardown : forall w',
    fst (PillarProvider.onDestroy w') = Ok tt /\
    cardInstances (prov (final (PillarProvider.onDestroy w'))) = [] /\
    forall h', In h' (tracked w') ->
               In (SvelteUnmount h')
                  (added w' (final (PillarProvider.onDestroy w')))).
  { intros w'.
    destruct (onDestroy_spec w')
      as [w3 [Hrun [_ [_ [_ [Hempty [suffix [Hext [_ Hall]]]]]]]]].
    unfold final. rewrite Hrun. cbn [fst snd].
    rewrite (added_of_extension _ _ _ Hext). auto. }
  assert (Hget : map_get container (cardInstances (prov w1)) = Some h).
  { unfold w1, rendered. rewrite render_card_run. cbn.
    apply map_get_set_same. }
  assert (Hok1 : map_ok (cardInstances (prov w1))).
  { unfold w1, rendered. rewrite render_card_run. cbn.
    now apply map_set_ok. }
  assert (Hcleaned : cleaned
    = (Ok tt,
       on_prov (fun p =>
          set_cardInstances (map_delete container (cardInstances p)) p)
         (record (SvelteUnmount h) w1))).
  { unfold cleaned. now apply card_cleanup_run. }
  split; [|split; [|split; [|split; [|split; [|split; [|split;
    [|split; [|split; [|split]]]]]]]]].
  - intros cardType C' Hin. rewrite registerCards_run. cbn [final snd].
    rewrite (added_of_extension w _
               (registrations instance (card_entries w) (fresh (env w))))
      by reflexivity.
    now apply in_registrations.
  - reflexivity.
  - unfold w1, rendered. rewrite render_card_run. cbn [snd].
    now apply added_of_extension.
  - exact Hget.
  - now rewrite Hcleaned.
  - unfold w2. rewrite Hcleaned. cbn [snd]. now apply added_of_extension.
  - unfold w2. rewrite Hcleaned. cbn. now apply map_get_delete_same.
  - intros later Hlater Hlater_get r. unfold r.
    rewrite (card_cleanup_run _ _ _ Hlater_get). cbn [fst snd].
    split; [reflexivity|]. split; [now apply added_of_extension|].
    cbn. now apply map_get_delete_same.
  - apply Hteardown.
  - apply Hteardown. eapply map_get_tracked. exact Hget.
  - intros w'. apply Hteardown.
Qed.

Lemma card_rendering_witness :
  let w := final (PillarProvider.onMount (Sdk.InitResolves 7)
                    (PillarProvider.create sample_props env_without_singleton)) in
  let rendered :=
    PillarProvider.render_card (R_card 3) 40 (JStr "payload") sample_callbacks w in
  let w1 := snd rendered in
  added w w1
  = [SvelteMount 3 40
       (mkCardComponentProps (JStr "payload") (JFun 11) (JFun 12) (JFun 13)) 6] /\
  added w1 (final (PillarProvider.call (T_cardCleanup 40) w1)) = [SvelteUnmount 6] /\
  In (SvelteUnmount 6) (added w1 (final (PillarProvider.onDestroy w1))).
Proof.
  pose proof (card_rendering
    (final (PillarProvider.onMount (Sdk.InitResolves 7)
              (PillarProvider.create sample_props env_without_singleton)))
    7 3 40 (JStr "payload") sample_callbacks) as H.
  cbv zeta in H.
  destruct H as [_ [_ [Hmount [_ [_ [Hclean [_ [_ [_ [Hdestroy _]]]]]]]]]].
  - constructor.
  - split; [exact Hmount | split; [exact Hclean | exact Hdestroy]].
Defined.

(** C5, as stated, fails when a container is rendered into a second time
    before the cleanup of the first render has run: the cleanup returned by
    the first render then unmounts the component of the second render, and
    the component of the first render (handle 0) is unmounted neither by
    that cleanup nor by [onDestroy]. *)
Lemma second_render_defeats_first_cleanup :
  let w := PillarProvider.create sample_props env_without_singleton in
  let first :=
    PillarProvider.render_card (R_card 3) 40 JNull sample_callbacks w in
  let second :=
    PillarProvider.render_card (R_card 3) 40 JNull sample_callbacks (snd first) in
  let cleaned := PillarProvider.call (T_cardCleanup 40) (snd second) in
  let destroyed := PillarProvider.onDestroy (snd cleaned) in
  fst first = Ok (T_cardCleanup 40) /\
  added w (snd first)
  = [SvelteMount 3 40
       (mkCardComponentProps JNull (JFun 11) (JFun 12) (JFun 13)) 0] /\
  added (snd first) (snd second)
  = [SvelteMount 3 40
       (mkCardComponentProps JNull (JFun 11) (JFun 12) (JFun 13)) 1] /\
  added (snd second) (snd cleaned) = [SvelteUnmount 1] /\
  added (snd cleaned) (snd destroyed) = [] /\
  ~ In (SvelteUnmount 0) (trace (env (snd destroyed))).
Proof.
  repeat split. cbn. intuition discriminate.
Qed.

(** The table is keyed by container: a container rendered into a second
    time before its cleanup ran is tracked with the newer handle only, and
    that is the handle the cleanup and [onDestroy] unmount. *)
Lemma second_render_replaces_tracked_handle :
  let w := PillarProvider.create sample_props env_without_singleton in
  let w1 := final (PillarProvider.render_card (R_card 3) 40 JNull sample_callbacks w) in
  let w2 := final (PillarProvider.render_card (R_card 3) 40 JNull sample_callbacks w1) in
  cardInstances (prov w1) = [(40, 0)] /\
  cardInstances (prov w2) = [(40, 1)] /\
  added w2 (final (PillarProvider.onDestroy w2)) = [SvelteUnmount 1].
Proof.
  repeat split.
Qed.

(** *** Store writes of every entry point *)

Ltac run_context :=
  cbv [perform discard run_operation hook_onTask hook_openSearch hook_openChat
       UsePillar.usePillar UsePillar.onTask UseHelpPanel.useHelpPanel
       UseHelpPanel.openSearch UseHelpPanel.openChat if_truthy truthy_string
       negb String.eqb
       the_context PillarProvider.contextValue Types.open Types.close
       Types.toggle Types.openArticle Types.openCategory Types.search
       Types.navigate Types.setTheme Types.setTextSelectionEnabled Types.on
       Types.pillar
       PillarProvider.open PillarProvider.close PillarProvider.toggle
       PillarProvider.openArticle PillarProvider.openCategory
       PillarProvider.search PillarProvider.navigate PillarProvider.setTheme
       PillarProvider.setTextSelectionEnabled PillarProvider.on
       PillarProvider.pillarStore Svelte.get Svelte.readable Svelte.current
       asks bind final].

Lemma operation_quiet (op : Operation) (w : World) :
  quiet w (final (run_operation the_context op w)).
Proof.
  destruct (pillarStore_value (prov w)) eqn:Hstore;
    destruct op; run_context; rewrite Hstore; repeat split.
Qed.

Lemma hook_onTask_quiet (taskName : string) (handler : JsVal) (w : World) :
  quiet w (final (hook_onTask taskName handler w)).
Proof.
  destruct (pillarStore_value (prov w)) eqn:Hstore;
    run_context; rewrite Hstore; repeat split.
Qed.

Lemma hook_openSearch_quiet (query : option string) (w : World) :
  quiet w (final (hook_openSearch query w)).
Proof.
  destruct (pillarStore_value (prov w)) eqn:Hstore;
    destruct query as [[|c q]|]; run_context; rewrite Hstore; repeat split.
Qed.

Lemma hook_openChat_quiet (w : World) : quiet w (final (hook_openChat w)).
Proof.
  destruct (pillarStore_value (prov w)) eqn:Hstore;
    run_context; rewrite Hstore; repeat split.
Qed.

Lemma final_discard {A : Type} (c : M A) (w : World) :
  final (discard c w) = final (c w).
Proof.
  unfold discard, bind, final. now destruct (c w) as [[a|e] w1].
Qed.

Lemma quiet_writes (w w' : World) :
  quiet w w' ->
  storeWrites (prov w') = storeWrites (prov w) ++ [] /\
  stores w' = fold_left apply_write [] (stores w) /\
  (map_ok (cardInstances (prov w)) -> map_ok (cardInstances (prov w'))).
Proof.
  intros [[Hv Hw] Hc]. rewrite app_nil_r, Hc. cbn. auto.
Qed.

Lemma apply_write_stores (w : World) :
  (forall v, stores (on_prov (set_pillarStore v) w)
             = apply_write (stores w) (W_pillar v)) /\
  (forall v, stores (on_prov (set_stateStore v) w)
             = apply_write (stores w) (W_state v)) /\
  (forall v, stores (on_prov (set_isPanelOpenStore v) w)
             = apply_write (stores w) (W_isPanelOpen v)).
Proof.
  repeat split.
Qed.

(** Every entry point: the writes it adds to the log are the ones on its
    code path, the store values afterwards are the old ones with these
    writes applied, and the card table stays a map. *)
Lemma perform_writes (a : Action) (w : World) :
  let w' := final (perform a w) in
  storeWrites (prov w') = storeWrites (prov w) ++ store_writes_of a w /\
  stores w' = fold_left apply_write (store_writes_of a w) (stores w) /\
  (map_ok (cardInstances (prov w)) -> map_ok (cardInstances (prov w'))).
Proof.
  destruct a as [op|taskName handler|query| |o| |l payload|r container d cbs|f];
    cbv zeta.
  - apply quiet_writes. cbn [perform]. rewrite final_discard.
    apply operation_quiet.
  - apply quiet_writes. cbn [perform]. rewrite final_discard.
    apply hook_onTask_quiet.
  - apply quiet_writes, hook_openSearch_quiet.
  - apply quiet_writes, hook_openChat_quiet.
  - cbn [perform]. unfold final. rewrite onMount_run. cbn [snd].
    unfold after_onMount, store_writes_of.
    destruct (Pillar_instance (env w)) as [i|]; [|destruct o as [i|e|e]];
      repeat split; auto.
  - cbn [perform store_writes_of].
    destruct (onDestroy_spec w) as [w' [Hrun [_ [[Hv Hw] [_ [Hempty _]]]]]].
    unfold final. rewrite Hrun. cbn [snd]. rewrite app_nil_r, Hempty.
    repeat split; auto. intros _. constructor.
  - destruct l; repeat split; auto.
    + cbn. now rewrite app_nil_r.
    + cbn. now rewrite app_nil_r.
  - cbn [perform store_writes_of]. destruct r as [C].
    rewrite final_discard. unfold final. rewrite render_card_run. cbn.
    rewrite app_nil_r. repeat split. apply map_set_ok.
  - cbn [perform store_writes_of].
    destruct (call_tears_down f w) as [_ [[Hv Hw] [Hm _]]].
    rewrite app_nil_r. repeat split; auto.
Qed.

(** ** Identifier resolution *)

Lemma truthy_string_nonempty (s : string) :
  s <> EmptyString -> truthy_string s = true.
Proof.
  destruct s; [congruence | reflexivity].
Qed.

Lemma onMount_trace (o : Sdk.InitOutcome) (w : World) :
  trace (env (after_onMount o w))
  = trace (env w) ++ added w (after_onMount o w).
Proof.
  unfold after_onMount.
  destruct (Pillar_instance (env w)) as [i|]; [|destruct o as [i|e|e]].
  - now rewrite added_after_reuse.
  - now rewrite added_after_fresh.
  - now rewrite added_after_failure.
  - now rewrite added_after_failure.
Qed.

Lemma activation_effects_split (P : Props) (e : Env) (o : Sdk.InitOutcome) :
  activation_effects P e o
  = (if truthy (helpCenter P) && negb (truthy (productKey P))
     then [ConsoleWarn PillarProvider.deprecation_message]
     else [])
    ++ added (PillarProvider.create P e)
         (after_onMount o (PillarProvider.create P e)).
Proof.
  unfold activation_effects, final. rewrite onMount_run. cbn [snd].
  rewrite onMount_trace, create_trace, <- app_assoc.
  apply skipn_length_app.
Qed.

Lemma fresh_mount_effects (o : Sdk.InitOutcome) (w : World) :
  Pillar_instance (env w) = None ->
  filter is_init (added w (after_onMount o w)) = [SdkInit (init_args w)] /\
  filter is_warn (added w (after_onMount o w)) = [].
Proof.
  intros Hnone. unfold after_onMount. rewrite Hnone.
  destruct o as [i|e|e]; rewrite ?added_after_fresh, ?added_after_failure;
    [|split; reflexivity|split; reflexivity].
  cbn [filter is_init is_warn].
  rewrite !filter_app, !filter_registrations by reflexivity.
  unfold fresh_subscriptions.
  now destruct (onTask (props (prov w))).
Qed.

Lemma obj_get_set_other (k k' : string) (v : JsVal) (o : JsObject) :
  k' <> k -> obj_get k (obj_set k' v o) = obj_get k o.
Proof.
  intros Hne. apply String.eqb_neq in Hne.
  induction o as [|[k0 v0] o IH]; cbn.
  - now rewrite Hne.
  - destruct (String.eqb k0 k') eqn:E; cbn.
    + apply String.eqb_eq in E; subst k0. now rewrite Hne.
    + now rewrite IH.
Qed.

Lemma obj_get_set_same (k : string) (v : JsVal) (o : JsObject) :
  obj_get k (obj_set k v o) = Some v.
Proof.
  induction o as [|[k0 v0] o IH]; cbn.
  - now rewrite String.eqb_refl.
  - destruct (String.eqb k0 k) eqn:E; cbn; rewrite E; [reflexivity | exact IH].
Qed.

(** Spreading an object that lacks a property leaves that property. *)
Lemma obj_get_spread_other (k : string) (source : JsObject) :
  ~ In k (map fst source) ->
  forall o, obj_get k (spread o source) = obj_get k o.
Proof.
  unfold spread.
  induction source as [|[k' v] rest IH]; cbn; intros Hnot o; [reflexivity|].
  rewrite IH by tauto. apply obj_get_set_other. tauto.
Qed.

(** The [productKey] that the initializer receives is the resolved key when
    [config] has none of its own. *)
Lemma init_productKey_resolved (key : option string) (P : Props) :
  config_without_productKey P ->
  obj_get "productKey" (mkInitArgs key (config P)) = Some (js_of_key key).
Proof.
  unfold config_without_productKey, mkInitArgs.
  destruct (config P) as [cfg|]; intros Hnot.
  - now rewrite obj_get_spread_other.
  - reflexivity.
Qed.

(** C6, as amended.  On a fresh initialization the initializer is called
    once, with the object [{ productKey: resolvedKey, ...config }].  With
    both identifiers given, the resolved key is the primary one, and it is
    the [productKey] the initializer receives provided [config] has no
    [productKey] of its own; no deprecation warning is printed during the
    activation provided the primary identifier is not the empty string.
    With only the deprecated alias given, the resolved key is the alias,
    received by the initializer under the same proviso, and provided the
    alias is not the empty string the activation prints the deprecation
    warning exactly once. *)
Theorem identifier_resolution (P : Props) (e : Env) (o : Sdk.InitOutcome) :
  Pillar_instance e = None ->
  (forall pk hc,
      productKey P = Some pk -> helpCenter P = Some hc ->
      filter is_init (activation_effects P e o)
      = [SdkInit (mkInitArgs (Some pk) (config P))] /\
      (config_without_productKey P ->
       obj_get "productKey" (mkInitArgs (Some pk) (config P))
       = Some (JStr pk)) /\
      (pk <> EmptyString -> filter is_warn (activation_effects P e o) = [])) /\
  (forall hc,
      productKey P = None -> helpCenter P = Some hc ->
      filter is_init (activation_effects P e o)
      = [SdkInit (mkInitArgs (Some hc) (config P))] /\
      (config_without_productKey P ->
       obj_get "productKey" (mkInitArgs (Some hc) (config P))
       = Some (JStr hc)) /\
      (hc <> EmptyString ->
       filter is_warn (activation_effects P e o)
       = [ConsoleWarn PillarProvider.deprecation_message])).
Proof.
  intros Hnone.
  assert (Hslot : Pillar_instance (env (PillarProvider.create P e)) = None)
    by (destruct (create_sdk P e) as [-> _]; exact Hnone).
  destruct (fresh_mount_effects o _ Hslot) as [Hinit Hwarn].
  unfold init_args in Hinit. rewrite create_prov in Hinit. cbn in Hinit.
  split.
  - intros pk hc Hpk Hhc. rewrite activation_effects_split, !filter_app.
    rewrite Hinit, Hwarn, Hpk, Hhc. cbn [nullish_or truthy].
    split; [|split].
    + now destruct (truthy_string hc && negb (truthy_string pk)).
    + apply (init_productKey_resolved (Some pk)).
    + intros Hne. rewrite (truthy_string_nonempty pk Hne).
      now rewrite andb_false_r.
  - intros hc Hpk Hhc. rewrite activation_effects_split, !filter_app.
    rewrite Hinit, Hwarn, Hpk, Hhc. cbn [nullish_or truthy negb].
    split; [|split].
    + rewrite andb_true_r. now destruct (truthy_string hc).
    + apply (init_productKey_resolved (Some hc)).
    + intros Hne. now rewrite (truthy_string_nonempty hc Hne).
Qed.

Lemma identifier_resolution_witness :
  filter is_init
    (activation_effects
       (mkProps None (Some "legacy-help-center")
          (Some [("panel", JObj [("position", JStr "right")])]) None None None)
       env_without_singleton (Sdk.InitResolves 7))
  = [SdkInit [("productKey", JStr "legacy-help-center");
              ("panel", JObj [("position", JStr "right")])]] /\
  obj_get "productKey"
    (mkInitArgs (Some "legacy-help-center")
       (Some [("panel", JObj [("position", JStr "right")])]))
  = Some (JStr "legacy-help-center") /\
  filter is_warn
    (activation_effects
       (mkProps None (Some "legacy-help-center")
          (Some [("panel", JObj [("position", JStr "right")])]) None None None)
       env_without_singleton (Sdk.InitResolves 7))
  = [ConsoleWarn PillarProvider.deprecation_message].
Proof.
  destruct (proj2 (identifier_resolution
                     (mkProps None (Some "legacy-help-center")
                        (Some [("panel", JObj [("position", JStr "right")])])
                        None None None)
                     env_without_singleton (Sdk.InitResolves 7) eq_refl)
              "legacy-help-center" eq_refl eq_refl) as [Hinit [Hkey Hwarn]].
  split; [exact Hinit|]. split.
  - apply Hkey. cbn. intros [H | []]. discriminate H.
  - apply Hwarn. discriminate.
Defined.

(** C6, as stated, fails on empty strings and on a [config] that carries a
    [productKey].  With [productKey] the empty string and [helpCenter]
    given, both identifiers are supplied and the deprecation warning is
    printed all the same; with [helpCenter] alone and empty, no warning is
    printed; with both identifiers given and [productKey: 'override'] in
    [config], the initializer receives ['override'], not the primary
    identifier. *)
Lemma empty_identifier_breaks_notice_rule :
  filter is_warn
    (activation_effects
       (mkProps (Some EmptyString) (Some "legacy-help-center") None None None None)
       env_without_singleton (Sdk.InitResolves 7))
  = [ConsoleWarn PillarProvider.deprecation_message] /\
  filter is_init
    (activation_effects
       (mkProps (Some EmptyString) (Some "legacy-help-center") None None None None)
       env_without_singleton (Sdk.InitResolves 7))
  = [SdkInit (mkInitArgs (Some EmptyString) None)] /\
  filter is_warn
    (activation_effects (mkProps None (Some EmptyString) None None None None)
       env_without_singleton (Sdk.InitResolves 7))
  = [] /\
  filter is_init
    (activation_effects
       (mkProps (Some "pk_live") (Some "legacy-help-center")
          (Some [("productKey", JStr "override")]) None None None)
       env_without_singleton (Sdk.InitResolves 7))
  = [SdkInit [("productKey", JStr "override")]].
Proof.
  repeat split.
Qed.

(** ** Hooks *)

(** C7.  For every context value, [usePillar] returns the context with an
    [onTask] added.  Called with a task name and a handler: while the
    context's pillar store holds an instance, it makes one call of that
    instance's [onTask] with the same name and handler and returns the
    function the SDK returned; while the store holds [null], it returns the
    no-op function and leaves the whole world, and so any pending list, as
    it was. *)
Theorem typed_onTask (c : Types.PillarContextValue) (taskName : string)
  (handler : JsVal) (w : World) :
  exists r,
    UsePillar.usePillar (Some c) = Ok r /\
    UsePillar.context r = c /\
    match Svelte.current (Svelte.readable (Types.pillar c)) w with
    | Some instance =>
        UsePillar.onTask r taskName handler w
        = (Ok (T_sdk (fresh (env w))),
           record (SdkOnTask instance taskName handler (fresh (env w)))
             (on_env (with_fresh (S (fresh (env w)))) w))
    | None => UsePillar.onTask r taskName handler w = (Ok T_noop, w)
    end.
Proof.
  eexists. split; [reflexivity|]. split; [reflexivity|].
  cbn [UsePillar.onTask]. unfold bind, Svelte.get, asks.
  now destruct (Svelte.current (Svelte.readable (Types.pillar c)) w).
Qed.

(** C8, as amended.  For every context value, [useHelpPanel] returns an
    [openSearch] that, for every query other than the empty string, is the
    context's [search] on that query, and with no argument, or with the
    empty string, is the context's [open] with only [view: 'search'].  On
    the provider's context with an instance in the store these are one call
    of the instance's [open], with the query as its [search] option in the
    first case and with the view alone in the second. *)
Theorem openSearch_dispatch (c : Types.PillarContextValue) :
  exists r,
    UseHelpPanel.useHelpPanel (Some c) = Ok r /\
    (forall query,
        query <> EmptyString ->
        UseHelpPanel.openSearch r (Some query) = Types.search c query) /\
    UseHelpPanel.openSearch r None
    = Types.open c (Some (mkOpenOptions (Some "search") None None None)) /\
    UseHelpPanel.openSearch r (Some EmptyString)
    = Types.open c (Some (mkOpenOptions (Some "search") None None None)) /\
    forall w instance query,
      pillarStore_value (prov w) = Some instance ->
      query <> EmptyString ->
      hook_openSearch (Some query) w
      = (Ok tt,
         record (SdkOpen instance
                   (Some (mkOpenOptions None None (Some query) None))) w) /\
      hook_openSearch None w
      = (Ok tt,
         record (SdkOpen instance
                   (Some (mkOpenOptions (Some "search") None None None))) w).
Proof.
  eexists. split; [reflexivity|]. cbn [UseHelpPanel.openSearch].
  split; [|split; [reflexivity|split; [reflexivity|]]].
  - intros query Hne. unfold if_truthy.
    now rewrite (truthy_string_nonempty query Hne).
  - intros w instance query Hstore Hne.
    destruct query as [|ch q]; [congruence|].
    split; run_context; now rewrite Hstore.
Qed.

Lemma openSearch_dispatch_witness :
  hook_openSearch (Some "billing") sample_mounted
  = (Ok tt,
     record (SdkOpen 7 (Some (mkOpenOptions None None (Some "billing") None)))
       sample_mounted) /\
  hook_openSearch None sample_mounted
  = (Ok tt,
     record (SdkOpen 7 (Some (mkOpenOptions (Some "search") None None None)))
       sample_mounted).
Proof.
  destruct (openSearch_dispatch the_context) as [r [_ [_ [_ [_ H]]]]].
  apply (H sample_mounted 7 "billing"); [reflexivity | discriminate].
Defined.

(** C8, as stated, fails for the empty query: [openSearch('')] opens the
    search view instead of searching for the given string. *)
Lemma openSearch_empty_query_opens_view :
  added sample_mounted (final (hook_openSearch (Some EmptyString) sample_mounted))
  = [SdkOpen 7 (Some (mkOpenOptions (Some "search") None None None))] /\
  added sample_mounted (final (Types.search the_context EmptyString sample_mounted))
  = [SdkOpen 7 (Some (mkOpenOptions None None (Some EmptyString) None))] /\
  hook_openSearch (Some EmptyString) sample_mounted
  <> Types.search the_context EmptyString sample_mounted.
Proof.
  repeat split. intros H. discriminate H.
Qed.

(** C9.  Without a provider context both hooks throw their configuration
    error; with one, both return a result. *)
Theorem hooks_throw_outside_provider :
  UsePillar.usePillar None
  = Thrown (JError "usePillar must be used within a PillarProvider") /\
  UseHelpPanel.useHelpPanel None
  = Thrown (JError "useHelpPanel must be used within a PillarProvider") /\
  (forall c, exists r, UsePillar.usePillar (Some c) = Ok r) /\
  (forall c, exists r, UseHelpPanel.useHelpPanel (Some c) = Ok r).
Proof.
  repeat split; intros c; eexists; reflexivity.
Qed.

(** ** Frame: who writes the stores *)

(** C10.  None of the ten operations of the context value makes a [set]
    call on a store or changes a store value.  Among all entry points of
    the adapter, a write of the panel-open store comes only from the
    ['panel:open'] and ['panel:close'] listeners, a write of the pillar
    store only from [onMount], a write of the state store only from
    [onMount] and from the ['ready'] and ['error'] listeners; and store
    values change only through such writes. *)
Theorem stores_written_by_mount_and_listeners_only (w : World) :
  (forall op : Operation,
      let w' := final (run_operation the_context op w) in
      written w w' = [] /\ stores w' = stores w) /\
  (forall a : Action,
      let w' := final (perform a w) in
      (forall v, In (W_isPanelOpen v) (written w w') ->
                 exists payload,
                   a = A_listener L_panelOpen payload \/
                   a = A_listener L_panelClose payload) /\
      (forall v, In (W_pillar v) (written w w') -> exists o, a = A_onMount o) /\
      (forall v, In (W_state v) (written w w') ->
                 (exists o, a = A_onMount o) \/
                 (exists payload,
                    a = A_listener L_ready payload \/
                    a = A_listener L_error payload)) /\
      (written w w' = [] -> stores w' = stores w)).
Proof.
  split.
  - intros op w'. destruct (operation_quiet op w) as [[Hv Hw] _].
    fold w' in Hv, Hw. split; [|exact Hv].
    apply written_of_extension. now rewrite app_nil_r.
  - intros a w'.
    destruct (perform_writes a w) as [Hlog [Hval _]]. fold w' in Hlog, Hval.
    rewrite (written_of_extension _ _ _ Hlog).
    repeat split.
    + intros v Hin. destruct a as [| | | | | |l payload| |]; try (now destruct Hin).
      * cbn in Hin. destruct (Pillar_instance (env w)); [|destruct o];
          cbn in Hin; intuition discriminate.
      * exists payload. destruct l; cbn in Hin; intuition discriminate.
    + intros v Hin. destruct a as [| | | |o| |l payload| |]; try (now destruct Hin).
      * now exists o.
      * destruct l; cbn in Hin; intuition discriminate.
    + intros v Hin. destruct a as [| | | |o| |l payload| |]; try (now destruct Hin).
      * left. now exists o.
      * right. exists payload. destruct l; cbn in Hin; intuition discriminate.
    + intros Hnil. rewrite Hval, Hnil. reflexivity.
Qed.

Lemma stores_written_witness :
  exists payload,
    A_listener L_panelClose (JStr "closed") = A_listener L_panelOpen payload \/
    A_listener L_panelClose (JStr "closed") = A_listener L_panelClose payload.
Proof.
  apply (proj1 (proj2 (stores_written_by_mount_and_listeners_only
                         (PillarProvider.create sample_props env_without_singleton))
                  (A_listener L_panelClose (JStr "closed")))) with (v := false).
  left. reflexivity.
Defined.

(** * Further properties *)

(** ** PillarPanel *)

Lemma panel_on_ready_cases (c : Types.PillarContextValue)
  (p : PillarPanel.Panel) (w : World) :
  PillarPanel.on_ready c p w
  = (Ok (match PillarPanel.containerRef p,
               Svelte.current (Svelte.readable (Types.pillar c)) w,
               PillarPanel.hasMounted p with
         | Some el, Some i, false => PillarPanel.mount_panel i el p
         | _, _, _ => p
         end), w).
Proof.
  unfold PillarPanel.on_ready, bind, Svelte.get, asks.
  destruct (PillarPanel.containerRef p) as [el|];
    destruct (Svelte.current (Svelte.readable (Types.pillar c)) w) as [i|];
    destruct (PillarPanel.hasMounted p); reflexivity.
Qed.

(** The panel after [onMount] is the panel before, or the panel before
    with one [mountPanelTo] made while [hasMounted] was still false. *)
Lemma panel_onMount_cases (p : PillarPanel.Panel) (w : World) :
  match fst (PillarPanel.onMount p w) with
  | Ok (_, p') =>
      p' = p \/
      (PillarPanel.hasMounted p = false /\
       exists i el, p' = PillarPanel.mount_panel i el p)
  | Thrown _ => True
  end.
Proof.
  unfold PillarPanel.onMount, bind, Svelte.get, asks, ret.
  destruct (PillarPanel.context p) as [c|]; cbn.
  - destruct (Svelte.current (Types.isReady c) w);
      destruct (Svelte.current (Svelte.readable (Types.pillar c)) w) as [i|];
      destruct (PillarPanel.containerRef p) as [el|];
      destruct (PillarPanel.hasMounted p) eqn:Hm; cbn;
      try (now left);
      try (right; split; [reflexivity | now exists i, el]);
      destruct (Types.on c "ready" (PillarPanel.readyListener p) w)
        as [[u|e] w1]; cbn; auto.
  - now left.
Qed.

Lemma mount_count_mount_panel i el (p : PillarPanel.Panel) :
  PillarPanel.mount_count (PillarPanel.mount_panel i el p)
  = S (PillarPanel.mount_count p).
Proof.
  unfold PillarPanel.mount_count, PillarPanel.mount_panel. cbn.
  rewrite filter_app, length_app. cbn. lia.
Qed.

Lemma panel_step_invariant (s : PillarPanel.PanelStep) (w : World)
  (p : PillarPanel.Panel) :
  PillarPanel.mount_count p = (if PillarPanel.hasMounted p then 1 else 0) ->
  PillarPanel.mount_count (PillarPanel.panel_step s w p)
  = (if PillarPanel.hasMounted (PillarPanel.panel_step s w p) then 1 else 0).
Proof.
  intros Hinv. destruct s as [el| |]; cbn [PillarPanel.panel_step].
  - exact Hinv.
  - pose proof (panel_onMount_cases p w) as H.
    destruct (fst (PillarPanel.onMount p w)) as [[u p']|e]; [|exact Hinv].
    destruct H as [-> | [Hm [i [el ->]]]]; [exact Hinv|].
    rewrite mount_count_mount_panel, Hinv, Hm. reflexivity.
  - destruct (PillarPanel.context p) as [c|]; [|exact Hinv].
    rewrite panel_on_ready_cases. cbn [fst].
    destruct (PillarPanel.containerRef p) as [el|]; [|exact Hinv].
    destruct (Svelte.current (Svelte.readable (Types.pillar c)) w) as [i|];
      [|exact Hinv].
    destruct (PillarPanel.hasMounted p) eqn:Hm; [now rewrite Hm|].
    rewrite mount_count_mount_panel, Hinv. reflexivity.
Qed.

(** X1.  Whatever the order and number of bindings, [onMount] runs and
    ['ready'] deliveries, and whatever the world at each of them, a panel
    calls [mountPanelTo] once if its guard flag is set and never
    otherwise: at most once in all. *)
Theorem panel_mounts_at_most_once
  (getContext : option Types.PillarContextValue) (listener : JsVal)
  (steps : list (PillarPanel.PanelStep * World)) :
  let p := PillarPanel.panel_run steps (PillarPanel.create getContext listener) in
  PillarPanel.mount_count p = (if PillarPanel.hasMounted p then 1 else 0) /\
  PillarPanel.mount_count p <= 1.
Proof.
  cbv zeta.
  assert (Hgen : forall p0,
    PillarPanel.mount_count p0 = (if PillarPanel.hasMounted p0 then 1 else 0) ->
    PillarPanel.mount_count (PillarPanel.panel_run steps p0)
    = (if PillarPanel.hasMounted (PillarPanel.panel_run steps p0)
       then 1 else 0)).
  { induction steps as [|[s w] rest IH]; intros p0 H0; cbn.
    - exact H0.
    - apply IH. now apply panel_step_invariant. }
  assert (H : PillarPanel.mount_count
                (PillarPanel.panel_run steps
                   (PillarPanel.create getContext listener))
              = (if PillarPanel.hasMounted
                      (PillarPanel.panel_run steps
                         (PillarPanel.create getContext listener))
                 then 1 else 0)).
  { apply Hgen. now destruct getContext. }
  split; [exact H|]. rewrite H.
  destruct (PillarPanel.hasMounted _); lia.
Qed.

(** X2.  Inside a provider whose state store is ['ready'] and whose pillar
    store holds an instance, [onMount] of a panel with a bound element and
    the guard unset mounts the panel of that instance into that element,
    sets the guard, returns no cleanup and subscribes to nothing. *)
Theorem panel_mounts_when_ready (p : PillarPanel.Panel) (w : World)
  (i : Pillar) (el : HTMLElement) :
  PillarPanel.context p = Some the_context ->
  stateStore_value (prov w) = "ready" ->
  pillarStore_value (prov w) = Some i ->
  PillarPanel.containerRef p = Some el ->
  PillarPanel.hasMounted p = false ->
  PillarPanel.onMount p w = (Ok (None, PillarPanel.mount_panel i el p), w) /\
  PillarPanel.panel_trace (PillarPanel.mount_panel i el p)
  = PillarPanel.panel_trace p ++ [PillarPanel.SdkMountPanelTo i el].
Proof.
  intros Hc Hs Hp He Hm. split; [|reflexivity].
  unfold PillarPanel.onMount, bind, Svelte.get, asks. rewrite Hc. cbn.
  now rewrite Hs, Hp, He, Hm.
Qed.

Lemma panel_mounts_when_ready_witness :
  PillarPanel.onMount sample_panel sample_mounted
  = (Ok (None, PillarPanel.mount_panel 7 50 sample_panel), sample_mounted) /\
  PillarPanel.panel_trace (PillarPanel.mount_panel 7 50 sample_panel)
  = [PillarPanel.SdkMountPanelTo 7 50].
Proof.
  apply (panel_mounts_when_ready sample_panel sample_mounted 7 50);
    reflexivity.
Defined.

(** X3.  Inside a provider that is not ready yet but already holds an
    instance, [onMount] of the panel mounts nothing, registers its listener
    for ['ready'] on that instance and returns the function the SDK
    returned as its cleanup.  When the listener runs later, in a world whose
    pillar store holds an instance, with the element bound and the guard
    unset, it mounts the panel of that instance into the element. *)
Theorem panel_defers_until_ready (p : PillarPanel.Panel) (w : World)
  (i : Pillar) :
  PillarPanel.context p = Some the_context ->
  stateStore_value (prov w) <> "ready" ->
  pillarStore_value (prov w) = Some i ->
  PillarPanel.onMount p w
  = (Ok (Some (T_sdk (fresh (env w))), p),
     record (SdkOn i "ready" (L_user (PillarPanel.readyListener p))
               (fresh (env w)))
       (on_env (with_fresh (S (fresh (env w)))) w)) /\
  forall later i' el,
    pillarStore_value (prov later) = Some i' ->
    PillarPanel.containerRef p = Some el ->
    PillarPanel.hasMounted p = false ->
    PillarPanel.on_ready the_context p later
    = (Ok (PillarPanel.mount_panel i' el p), later).
Proof.
  intros Hc Hs Hp. split.
  - unfold PillarPanel.onMount, bind, Svelte.get, asks. rewrite Hc. cbn.
    apply String.eqb_neq in Hs. rewrite Hs. cbn.
    run_context. now rewrite Hp.
  - intros later i' el Hp' He Hm. rewrite panel_on_ready_cases.
    cbn. now rewrite He, Hp', Hm.
Qed.

Lemma panel_defers_until_ready_witness :
  let w := final (PillarProvider.onMount (Sdk.InitResolves 7)
                    (PillarProvider.create sample_props
                       (env_with_singleton "initializing"))) in
  PillarPanel.onMount sample_panel w
  = (Ok (Some (T_sdk 3), sample_panel),
     record (SdkOn 7 "ready" (L_user (JFun 21)) 3)
       (on_env (with_fresh 4) w)) /\
  PillarPanel.on_ready the_context sample_panel sample_mounted
  = (Ok (PillarPanel.mount_panel 7 50 sample_panel), sample_mounted).
Proof.
  destruct (panel_defers_until_ready sample_panel
              (final (PillarProvider.onMount (Sdk.InitResolves 7)
                        (PillarProvider.create sample_props
                           (env_with_singleton "initializing")))) 7)
    as [Hmount Hlater]; [reflexivity | discriminate | reflexivity |].
  split; [exact Hmount|].
  apply Hlater; reflexivity.
Defined.

(** X4.  Inside a provider whose pillar store still holds [null], [onMount]
    of the panel mounts nothing and leaves the world as it was: no listener
    reaches the SDK.  What it returns is the no-op when the provider is not
    ready, and nothing when it is. *)
Theorem panel_before_instance (p : PillarPanel.Panel) (w : World) :
  PillarPanel.context p = Some the_context ->
  pillarStore_value (prov w) = None ->
  PillarPanel.onMount p w
  = (Ok (if String.eqb (stateStore_value (prov w)) "ready"
         then None else Some T_noop, p), w).
Proof.
  intros Hc Hp.
  unfold PillarPanel.onMount, bind, Svelte.get, asks. rewrite Hc. cbn.
  rewrite Hp.
  destruct (String.eqb (stateStore_value (prov w)) "ready"); cbn.
  - reflexivity.
  - run_context. now rewrite Hp.
Qed.

Lemma panel_before_instance_witness :
  PillarPanel.onMount sample_panel
    (PillarProvider.create sample_props env_without_singleton)
  = (Ok (Some T_noop, sample_panel),
     PillarProvider.create sample_props env_without_singleton).
Proof.
  apply (panel_before_instance sample_panel
           (PillarProvider.create sample_props env_without_singleton));
    reflexivity.
Defined.

(** X5.  Outside a provider the panel reports the configuration error once,
    when it is created; [onMount] then returns normally with no cleanup and
    changes neither the panel nor the world, and through any sequence of
    steps the panel never calls [mountPanelTo]. *)
Theorem panel_outside_provider (listener : JsVal) (w : World)
  (steps : list (PillarPanel.PanelStep * World)) :
  let p := PillarPanel.create None listener in
  PillarPanel.panel_trace p
  = [PillarPanel.PanelConsoleError
       "[Pillar Svelte] PillarPanel must be used within a PillarProvider"] /\
  (forall q, PillarPanel.context q = None ->
             PillarPanel.onMount q w = (Ok (None, q), w)) /\
  PillarPanel.panel_trace (PillarPanel.panel_run steps p)
  = PillarPanel.panel_trace p.
Proof.
  cbv zeta. split; [reflexivity|]. split.
  - intros q Hq. unfold PillarPanel.onMount, bind, Svelte.get, asks.
    rewrite Hq. cbn.
    now destruct (PillarPanel.containerRef q), (PillarPanel.hasMounted q).
  - assert (Hgen : forall p0,
      PillarPanel.context p0 = None ->
      PillarPanel.context (PillarPanel.panel_run steps p0) = None /\
      PillarPanel.panel_trace (PillarPanel.panel_run steps p0)
      = PillarPanel.panel_trace p0).
    { induction steps as [|[s w0] rest IH]; intros p0 H0; cbn; [auto|].
      assert (Hstep : PillarPanel.context (PillarPanel.panel_step s w0 p0) = None
                      /\ PillarPanel.panel_trace (PillarPanel.panel_step s w0 p0)
                         = PillarPanel.panel_trace p0).
      { destruct s as [el| |]; cbn [PillarPanel.panel_step].
        - now split.
        - unfold PillarPanel.onMount, bind, Svelte.get, asks. rewrite H0. cbn.
          destruct (PillarPanel.containerRef p0), (PillarPanel.hasMounted p0);
            cbn; now split.
        - rewrite H0. now split. }
      destruct Hstep as [Hc Ht]. destruct (IH _ Hc) as [Hc' Ht'].
      split; [exact Hc' | now rewrite Ht', Ht]. }
    apply Hgen. reflexivity.
Qed.

Lemma panel_outside_provider_witness :
  PillarPanel.onMount (PillarPanel.create None (JFun 21)) sample_mounted
  = (Ok (None, PillarPanel.create None (JFun 21)), sample_mounted).
Proof.
  apply (proj1 (proj2 (panel_outside_provider (JFun 21) sample_mounted []))).
  reflexivity.
Defined.

(** ** Teardown, exactly *)

Lemma cleanup_tokens_sdk (ts : list Token) :
  cleanup_tokens (map T_sdk ts) = ts.
Proof.
  unfold cleanup_tokens.
  induction ts as [|t ts IH]; cbn; [reflexivity | now f_equal].
Qed.

Lemma sdk_cleanups_are_tokens (fs : list Thunk) :
  Forall (fun f => exists t, f = T_sdk t) fs ->
  fs = map T_sdk (cleanup_tokens fs).
Proof.
  unfold cleanup_tokens.
  induction 1 as [|f fs [t ->] _ IH]; cbn; [reflexivity | now f_equal].
Qed.

Lemma cleanups_ok_sdk (w : World) :
  cleanups_ok w ->
  Forall (fun f => exists t, f = T_sdk t) (cleanupFunctions (prov w)).
Proof.
  unfold cleanups_ok. apply Forall_impl. intros f [t [Hf _]]. now exists t.
Qed.

Lemma call_all_sdk (ts : list Token) : forall w,
  forEach PillarProvider.call (map T_sdk ts) w
  = (Ok tt,
     mkWorld (prov w)
       (mkEnv (Pillar_instance (env w)) (Pillar_state (env w)) (fresh (env w))
          (trace (env w) ++ map SdkUnsubscribe ts))).
Proof.
  induction ts as [|t ts IH]; intros [p e]; destruct e.
  - cbn. now rewrite app_nil_r.
  - cbn [map forEach]. unfold bind at 1. cbn. rewrite IH. cbn.
    now rewrite <- app_assoc.
Qed.

Lemma onDestroy_run (w : World) :
  Forall (fun f => exists t, f = T_sdk t) (cleanupFunctions (prov w)) ->
  PillarProvider.onDestroy w = (Ok tt, after_onDestroy w).
Proof.
  intros Hsdk. unfold PillarProvider.onDestroy, bind, asks, modify.
  rewrite (sdk_cleanups_are_tokens _ Hsdk) at 1.
  rewrite call_all_sdk. cbn. rewrite unmount_all_run.
  unfold after_onDestroy, tracked. cbn.
  now rewrite <- app_assoc, map_map.
Qed.

Lemma returned_tokens_app (a b : list Effect) :
  returned_tokens (a ++ b) = returned_tokens a ++ returned_tokens b.
Proof.
  unfold returned_tokens. apply flat_map_app.
Qed.

Lemma returned_tokens_registrations instance entries : forall n,
  returned_tokens (registrations instance entries n) = seq n (length entries).
Proof.
  unfold returned_tokens.
  induction entries as [|[cardType C] rest IH]; intros n; cbn;
    [reflexivity | now f_equal].
Qed.

(** The tokens returned during [onMount] are the ones it collects. *)
Lemma onMount_collects (o : Sdk.InitOutcome) (w : World) :
  cleanupFunctions (prov (after_onMount o w))
  = cleanupFunctions (prov w)
      ++ map T_sdk (returned_tokens (added w (after_onMount o w))) /\
  cardInstances (prov (after_onMount o w)) = cardInstances (prov w).
Proof.
  unfold after_onMount.
  destruct (Pillar_instance (env w)) as [i|]; [|destruct o as [i|e|e]].
  - rewrite added_after_reuse. cbn.
    now rewrite returned_tokens_registrations.
  - rewrite added_after_fresh. cbn [returned_tokens flat_map].
    fold (returned_tokens
            (fresh_subscriptions i (fresh (env w)) (onTask (props (prov w)))
             ++ registrations i (card_entries w)
                  (length (fresh_subscriptions i (fresh (env w))
                             (onTask (props (prov w)))) + fresh (env w)))).
    rewrite returned_tokens_app, returned_tokens_registrations.
    cbn [app after_fresh prov cleanupFunctions cardInstances].
    split; [|reflexivity]. f_equal. rewrite seq_app, map_app.
    rewrite (Nat.add_comm (fresh (env w))).
    unfold fresh_subscriptions.
    now destruct (onTask (props (prov w))).
  - rewrite added_after_failure. cbn. now rewrite app_nil_r.
  - rewrite added_after_failure. cbn. now rewrite app_nil_r.
Qed.

(** X6.  A provider that is created, mounted and destroyed calls, in
    [onDestroy], every function the SDK returned to it during the mount,
    each once and in the order received, and nothing else; this holds on
    the reuse path, on the fresh path and after a failed
    initialization. *)
Theorem mount_then_destroy_unsubscribes_all (P : Props) (e : Env)
  (o : Sdk.InitOutcome) :
  let w := PillarProvider.create P e in
  let w1 := final (PillarProvider.onMount o w) in
  let w2 := final (PillarProvider.onDestroy w1) in
  PillarProvider.onDestroy w1 = (Ok tt, w2) /\
  added w1 w2 = map SdkUnsubscribe (returned_tokens (added w w1)) /\
  cleanupFunctions (prov w2) = [].
Proof.
  intros w w1 w2.
  assert (Hw1 : w1 = after_onMount o w)
    by (unfold w1, final; now rewrite onMount_run).
  destruct (onMount_collects o w) as [Hcf Hcards].
  assert (Hcf0 : cleanupFunctions (prov w) = [])
    by (unfold w; now rewrite create_prov).
  assert (Hcards0 : cardInstances (prov w) = [])
    by (unfold w; now rewrite create_prov).
  rewrite Hcf0 in Hcf. rewrite Hcards0 in Hcards. cbn [app] in Hcf.
  assert (Hsdk : Forall (fun f => exists t, f = T_sdk t)
                   (cleanupFunctions (prov w1))).
  { rewrite Hw1, Hcf. apply Forall_forall. intros f Hin.
    apply in_map_iff in Hin. destruct Hin as [t [<- _]]. now exists t. }
  assert (Hrun : PillarProvider.onDestroy w1 = (Ok tt, after_onDestroy w1))
    by now apply onDestroy_run.
  assert (Hw2 : w2 = after_onDestroy w1)
    by (unfold w2, final; now rewrite Hrun).
  split; [now rewrite Hw2|]. split; [|now rewrite Hw2].
  rewrite Hw2.
  rewrite (added_of_extension w1 (after_onDestroy w1)
             (map SdkUnsubscribe (cleanup_tokens (cleanupFunctions (prov w1)))
              ++ map SvelteUnmount (tracked w1))) by reflexivity.
  unfold tracked. rewrite Hw1, Hcf, Hcards, cleanup_tokens_sdk. cbn.
  now rewrite app_nil_r.
Qed.

(** X7.  [onDestroy] run a second time does nothing: it returns normally
    and leaves the world as the first run left it. *)
Theorem onDestroy_twice (w : World) :
  let w1 := final (PillarProvider.onDestroy w) in
  PillarProvider.onDestroy w1 = (Ok tt, w1).
Proof.
  cbv zeta.
  destruct (onDestroy_spec w) as [w1 [Hrun [_ [_ [Hcf [Hcards _]]]]]].
  unfold final. rewrite Hrun. cbn [snd].
  destruct w1 as [p e]; destruct p, e. cbn in Hcf, Hcards. subst.
  reflexivity.
Qed.

(** ** Destroyed while the initializer is pending *)




(** ** Invariants of the provider *)

Lemma keeps_cleanups_refl (w : World) : keeps_cleanups w w.
Proof.
  split; [reflexivity | lia].
Qed.

Lemma keeps_cleanups_trans (a b c : World) :
  keeps_cleanups a b -> keeps_cleanups b c -> keeps_cleanups a c.
Proof.
  intros [H1 H2] [H3 H4]. split; [congruence | lia].
Qed.

Lemma operation_keeps_cleanups (op : Operation) (w : World) :
  keeps_cleanups w (final (run_operation the_context op w)).
Proof.
  destruct (pillarStore_value (prov w)) eqn:Hstore;
    destruct op; run_context; rewrite Hstore; split; cbn; auto with arith.
Qed.

Lemma hook_onTask_keeps_cleanups (taskName : string) (handler : JsVal)
  (w : World) :
  keeps_cleanups w (final (hook_onTask taskName handler w)).
Proof.
  destruct (pillarStore_value (prov w)) eqn:Hstore;
    run_context; rewrite Hstore; split; cbn; auto with arith.
Qed.

Lemma hook_openSearch_keeps_cleanups (query : option string) (w : World) :
  keeps_cleanups w (final (hook_openSearch query w)).
Proof.
  destruct (pillarStore_value (prov w)) eqn:Hstore;
    destruct query as [[|c q]|]; run_context; rewrite Hstore; split; cbn; auto with arith.
Qed.

Lemma hook_openChat_keeps_cleanups (w : World) :
  keeps_cleanups w (final (hook_openChat w)).
Proof.
  destruct (pillarStore_value (prov w)) eqn:Hstore;
    run_context; rewrite Hstore; split; cbn; auto with arith.
Qed.

Lemma call_keeps_cleanups (f : Thunk) (w : World) :
  keeps_cleanups w (final (PillarProvider.call f w)).
Proof.
  destruct f as [|t|container]; try (split; cbn; auto with arith; fail).
  unfold PillarProvider.call, bind, asks, final.
  destruct (map_get container (cardInstances (prov w))); split; cbn;
    auto with arith.
Qed.

Lemma cleanups_ok_kept (w w' : World) :
  cleanups_ok w -> keeps_cleanups w w' -> cleanups_ok w'.
Proof.
  unfold cleanups_ok. intros Hok [-> Hle].
  eapply Forall_impl; [|exact Hok].
  intros f [t [Hf Hlt]]. exists t. split; [exact Hf | lia].
Qed.

Lemma cleanups_ok_extended (w w' : World) (k : nat) :
  cleanups_ok w ->
  cleanupFunctions (prov w')
  = cleanupFunctions (prov w) ++ map T_sdk (seq (fresh (env w)) k) ->
  fresh (env w') = fresh (env w) + k ->
  cleanups_ok w'.
Proof.
  unfold cleanups_ok. intros Hok -> ->. apply Forall_app. split.
  - eapply Forall_impl; [|exact Hok].
    intros f [t [Hf Hlt]]. exists t. split; [exact Hf | lia].
  - apply Forall_forall. intros f Hin. apply in_map_iff in Hin.
    destruct Hin as [t [<- Hin]]. apply in_seq in Hin.
    exists t. split; [reflexivity | lia].
Qed.

Lemma perform_cleanups_ok (a : Action) (w : World) :
  cleanups_ok w -> cleanups_ok (final (perform a w)).
Proof.
  intros Hok.
  destruct a as [op|taskName handler|query| |o| |l payload|r container d cbs|f];
    cbn [perform]; rewrite ?final_discard.
  - eapply cleanups_ok_kept; [exact Hok | apply operation_keeps_cleanups].
  - eapply cleanups_ok_kept; [exact Hok | apply hook_onTask_keeps_cleanups].
  - eapply cleanups_ok_kept; [exact Hok | apply hook_openSearch_keeps_cleanups].
  - eapply cleanups_ok_kept; [exact Hok | apply hook_openChat_keeps_cleanups].
  - unfold final. rewrite onMount_run. cbn [snd]. unfold after_onMount.
    destruct (Pillar_instance (env w)) as [i|]; [|destruct o as [i|e|e]].
    + now apply (cleanups_ok_extended w _ (2 + length (card_entries w))).
    + now apply (cleanups_ok_extended w _
        (length (fresh_subscriptions i (fresh (env w)) (onTask (props (prov w))))
         + length (card_entries w))).
    + eapply cleanups_ok_kept; [exact Hok | split; [reflexivity | cbn; lia]].
    + eapply cleanups_ok_kept; [exact Hok | split; [reflexivity | cbn; lia]].
  - destruct (onDestroy_spec w) as [w' [Hrun [_ [_ [Hcf _]]]]].
    unfold final. rewrite Hrun. cbn [snd]. unfold cleanups_ok. rewrite Hcf.
    constructor.
  - eapply cleanups_ok_kept; [exact Hok|].
    destruct l; split; cbn; auto with arith.
  - eapply cleanups_ok_kept; [exact Hok|]. destruct r as [C].
    unfold final. rewrite render_card_run. split; cbn; auto with arith.
  - eapply cleanups_ok_kept; [exact Hok | apply call_keeps_cleanups].
Qed.

(** X9.  In every world reached from the creation of the provider by any
    sequence of entry points, the card table has pairwise distinct
    containers, every collected cleanup is a function that the SDK returned
    earlier, and the values of the three stores are the initial values with
    the logged [set] calls applied in order. *)
Theorem provider_invariants (P : Props) (e : Env) (actions : list Action) :
  let w := run actions (PillarProvider.create P e) in
  map_ok (cardInstances (prov w)) /\
  cleanups_ok w /\
  stores w = fold_left apply_write (storeWrites (prov w)) initial_stores.
Proof.
  cbv zeta.
  assert (Hgen : forall w0,
    map_ok (cardInstances (prov w0)) /\
    cleanups_ok w0 /\
    stores w0 = fold_left apply_write (storeWrites (prov w0)) initial_stores ->
    map_ok (cardInstances (prov (run actions w0))) /\
    cleanups_ok (run actions w0) /\
    stores (run actions w0)
    = fold_left apply_write (storeWrites (prov (run actions w0))) initial_stores).
  { unfold run. induction actions as [|a rest IH]; intros w0 H0; cbn.
    - exact H0.
    - apply IH. destruct H0 as [Hmap [Hcl Hst]].
      destruct (perform_writes a w0) as [Hlog [Hval Hmap']].
      split; [now apply Hmap'|]. split; [now apply perform_cleanups_ok|].
      rewrite Hlog, fold_left_app, <- Hst. exact Hval. }
  apply Hgen. unfold cleanups_ok, stores. rewrite create_prov. cbn.
  repeat split; constructor.
Qed.

(** ** Listeners registered through the context *)

Lemma cleanup_tokens_bound (w : World) (t : Token) :
  cleanups_ok w ->
  In t (cleanup_tokens (cleanupFunctions (prov w))) -> t < fresh (env w).
Proof.
  unfold cleanups_ok, cleanup_tokens. intros Hok Hin.
  apply in_flat_map in Hin. destruct Hin as [f [Hf Ht]].
  rewrite Forall_forall in Hok. destruct (Hok f Hf) as [t' [-> Hlt]].
  destruct Ht as [<- | []]. exact Hlt.
Qed.

Lemma onDestroy_unsubscribes (w : World) (t : Token) :
  cleanups_ok w ->
  In (SdkUnsubscribe t) (added w (final (PillarProvider.onDestroy w))) ->
  In t (cleanup_tokens (cleanupFunctions (prov w))).
Proof.
  intros Hok Hin. unfold final in Hin.
  rewrite (onDestroy_run w (cleanups_ok_sdk w Hok)) in Hin. cbn [snd] in Hin.
  rewrite (added_of_extension w (after_onDestroy w)
             (map SdkUnsubscribe (cleanup_tokens (cleanupFunctions (prov w)))
              ++ map SvelteUnmount (tracked w))) in Hin by reflexivity.
  apply in_app_or in Hin. destruct Hin as [Hin | Hin].
  - apply in_map_iff in Hin. destruct Hin as [t' [Heq Hin]].
    now inversion Heq; subst.
  - apply in_map_iff in Hin. destruct Hin as [h [Heq _]]. discriminate.
Qed.

(** X10.  A listener registered through the context's [on], or a task
    handler registered through the hook's [onTask], is not collected by the
    provider: [cleanupFunctions] stays as it was, and [onDestroy] does not
    call the unsubscribe function that the registration returned. *)
Theorem context_subscriptions_outlive_provider (w : World) (i : Pillar)
  (event : string) (callback : JsVal) (taskName : string) (handler : JsVal) :
  cleanups_ok w ->
  pillarStore_value (prov w) = Some i ->
  let t := fresh (env w) in
  let w1 := final (Types.on the_context event callback w) in
  let w2 := final (hook_onTask taskName handler w) in
  fst (Types.on the_context event callback w) = Ok (T_sdk t) /\
  cleanupFunctions (prov w1) = cleanupFunctions (prov w) /\
  ~ In (SdkUnsubscribe t) (added w1 (final (PillarProvider.onDestroy w1))) /\
  fst (hook_onTask taskName handler w) = Ok (T_sdk t) /\
  cleanupFunctions (prov w2) = cleanupFunctions (prov w) /\
  ~ In (SdkUnsubscribe t) (added w2 (final (PillarProvider.onDestroy w2))).
Proof.
  intros Hok Hstore t w1 w2.
  assert (Hon : Types.on the_context event callback w
    = (Ok (T_sdk t),
       record (SdkOn i event (L_user callback) t)
         (on_env (with_fresh (S t)) w)))
    by (run_context; now rewrite Hstore).
  assert (Htask : hook_onTask taskName handler w
    = (Ok (T_sdk t),
       record (SdkOnTask i taskName handler t)
         (on_env (with_fresh (S t)) w)))
    by (run_context; now rewrite Hstore).
  assert (Hcf1 : cleanupFunctions (prov w1) = cleanupFunctions (prov w))
    by (unfold w1, final; now rewrite Hon).
  assert (Hcf2 : cleanupFunctions (prov w2) = cleanupFunctions (prov w))
    by (unfold w2, final; now rewrite Htask).
  assert (Hok1 : cleanups_ok w1).
  { eapply cleanups_ok_kept; [exact Hok|]. split; [exact Hcf1|].
    unfold w1, final. rewrite Hon. cbn. lia. }
  assert (Hok2 : cleanups_ok w2).
  { eapply cleanups_ok_kept; [exact Hok|]. split; [exact Hcf2|].
    unfold w2, final. rewrite Htask. cbn. lia. }
  assert (Hnot : ~ In t (cleanup_tokens (cleanupFunctions (prov w)))).
  { intros Hin. apply (cleanup_tokens_bound w t Hok) in Hin. unfold t in Hin.
    lia. }
  split; [now rewrite Hon|]. split; [exact Hcf1|]. split.
  { intros Hin. apply (onDestroy_unsubscribes w1 t Hok1) in Hin.
    rewrite Hcf1 in Hin. exact (Hnot Hin). }
  split; [now rewrite Htask|]. split; [exact Hcf2|].
  intros Hin. apply (onDestroy_unsubscribes w2 t Hok2) in Hin.
  rewrite Hcf2 in Hin. exact (Hnot Hin).
Qed.

Lemma context_subscriptions_witness :
  fst (Types.on the_context "panel:open" (JFun 30) sample_mounted)
  = Ok (T_sdk 3) /\
  ~ In (SdkUnsubscribe 3)
      (added (final (Types.on the_context "panel:open" (JFun 30) sample_mounted))
         (final (PillarProvider.onDestroy
                   (final (Types.on the_context "panel:open" (JFun 30)
                             sample_mounted))))).
Proof.
  destruct (context_subscriptions_outlive_provider sample_mounted 7
              "panel:open" (JFun 30) "add_source" (JFun 31))
    as [Hret [_ [Hnot _]]].
  - repeat constructor; eexists; (split; [reflexivity | cbn; lia]).
  - reflexivity.
  - split; [exact Hret | exact Hnot].
Defined.

(** ** Card cleanups *)

Lemma map_get_set_other (k k' : HTMLElement) (v : Handle) m :
  k <> k' -> map_get k' (map_set k v m) = map_get k' m.
Proof.
  intros Hne. induction m as [|[k0 v0] m IH]; cbn.
  - destruct (Nat.eqb k k') eqn:E; [apply Nat.eqb_eq in E; congruence|].
    reflexivity.
  - destruct (Nat.eqb k0 k) eqn:E; cbn.
    + apply Nat.eqb_eq in E; subst k0.
      destruct (Nat.eqb k k') eqn:E'; [apply Nat.eqb_eq in E'; congruence|].
      reflexivity.
    + now rewrite IH.
Qed.

Lemma map_get_delete_other (k k' : HTMLElement) m :
  k <> k' -> map_get k' (map_delete k m) = map_get k' m.
Proof.
  intros Hne. induction m as [|[k0 v0] m IH]; cbn; [reflexivity|].
  destruct (Nat.eqb k0 k) eqn:E; cbn.
  - apply Nat.eqb_eq in E; subst k0.
    destruct (Nat.eqb k k') eqn:E'; [apply Nat.eqb_eq in E'; congruence|].
    reflexivity.
  - now rewrite IH.
Qed.

Lemma map_get_delete_none (k k' : HTMLElement) m :
  map_get k m = None -> map_get k (map_delete k' m) = None.
Proof.
  induction m as [|[k0 v0] m IH]; cbn; [reflexivity|].
  destruct (Nat.eqb k0 k) eqn:E; [discriminate|]. intros H.
  destruct (Nat.eqb k0 k'); cbn; [exact H | rewrite E; now apply IH].
Qed.

(** An entry point other than a render into the container leaves an
    untracked container untracked. *)
Lemma perform_keeps_untracked (container : HTMLElement) (a : Action)
  (w : World) :
  renders_into container a = false ->
  map_get container (cardInstances (prov w)) = None ->
  map_get container (cardInstances (prov (final (perform a w)))) = None.
Proof.
  intros Hr Hnone.
  destruct a as [op|taskName handler|query| |o| |l payload|r c d cbs|f];
    cbn [perform]; rewrite ?final_discard.
  - destruct (operation_quiet op w) as [_ Hq]. unfold the_context in Hq.
    now rewrite Hq.
  - destruct (hook_onTask_quiet taskName handler w) as [_ ->]. exact Hnone.
  - destruct (hook_openSearch_quiet query w) as [_ ->]. exact Hnone.
  - destruct (hook_openChat_quiet w) as [_ ->]. exact Hnone.
  - unfold final. rewrite onMount_run. cbn [snd].
    destruct (onMount_collects o w) as [_ ->]. exact Hnone.
  - destruct (onDestroy_spec w) as [w' [Hrun [_ [_ [_ [Hcards _]]]]]].
    unfold final. rewrite Hrun. cbn [snd]. now rewrite Hcards.
  - destruct l; exact Hnone.
  - cbn in Hr. apply Nat.eqb_neq in Hr. destruct r as [C].
    unfold final. rewrite render_card_run. cbn.
    now rewrite map_get_set_other.
  - destruct f as [|t|c]; try exact Hnone.
    unfold final, PillarProvider.call, bind, asks.
    destruct (map_get c (cardInstances (prov w))); cbn;
      [now apply map_get_delete_none | exact Hnone].
Qed.

Lemma run_keeps_untracked (container : HTMLElement) (actions : list Action) :
  Forall (fun a => renders_into container a = false) actions ->
  forall w,
    map_get container (cardInstances (prov w)) = None ->
    map_get container (cardInstances (prov (run actions w))) = None.
Proof.
  unfold run. induction 1 as [|a rest Ha _ IH]; intros w Hnone; cbn.
  - exact Hnone.
  - apply IH. now apply perform_keeps_untracked.
Qed.

(** X11.  Once a card cleanup has run, calling it again does nothing for as
    long as no card is rendered into its container, whatever other entry
    points run in between, [onDestroy] included.  After a new render into
    the container the same cleanup unmounts the newly mounted component. *)
Theorem card_cleanup_repeated (w : World) (container : HTMLElement)
  (actions : list Action) :
  map_ok (cardInstances (prov w)) ->
  Forall (fun a => renders_into container a = false) actions ->
  let w1 := final (PillarProvider.call (T_cardCleanup container) w) in
  let w2 := run actions w1 in
  PillarProvider.call (T_cardCleanup container) w2 = (Ok tt, w2) /\
  forall r d callbacks,
    let w3 := final (PillarProvider.render_card r container d callbacks w2) in
    PillarProvider.call (T_cardCleanup container) w3
    = (Ok tt,
       on_prov (fun p =>
          set_cardInstances (map_delete container (cardInstances p)) p)
         (record (SvelteUnmount (fresh (env w2))) w3)).
Proof.
  intros Hok Hactions w1 w2.
  assert (H1 : map_get container (cardInstances (prov w1)) = None).
  { unfold w1, final, PillarProvider.call, bind, asks.
    destruct (map_get container (cardInstances (prov w))) as [h|] eqn:Hget;
      cbn; [now apply map_get_delete_same | exact Hget]. }
  assert (H2 : map_get container (cardInstances (prov w2)) = None).
  { unfold w2. now apply run_keeps_untracked. }
  split.
  - unfold PillarProvider.call, bind, asks. now rewrite H2.
  - intros r d callbacks w3. apply card_cleanup_run.
    unfold w3, final. destruct r as [C]. rewrite render_card_run. cbn.
    apply map_get_set_same.
Qed.

Lemma card_cleanup_repeated_witness :
  let w := final (PillarProvider.render_card (R_card 3) 40 JNull
                    sample_callbacks sample_mounted) in
  let w1 := final (PillarProvider.call (T_cardCleanup 40) w) in
  let w2 := run [A_renderCard (R_card 3) 41 JNull sample_callbacks;
                 A_operation Op_toggle] w1 in
  added w w1 = [SvelteUnmount 3] /\
  PillarProvider.call (T_cardCleanup 40) w2 = (Ok tt, w2).
Proof.
  split; [reflexivity|].
  apply (card_cleanup_repeated
           (final (PillarProvider.render_card (R_card 3) 40 JNull
                     sample_callbacks sample_mounted)) 40
           [A_renderCard (R_card 3) 41 JNull sample_callbacks;
            A_operation Op_toggle]).
  - repeat constructor. cbn. tauto.
  - repeat constructor.
Defined.

(** X12.  Cards in different containers do not interfere: rendering into
    one container, or running the cleanup of one container, leaves what
    is tracked under any other container as it was. *)
Theorem card_containers_are_independent (w : World) (r : Renderer)
  (container other : HTMLElement) (d : JsVal) (callbacks : CardCallbacks) :
  container <> other ->
  map_get other
    (cardInstances
       (prov (final (PillarProvider.render_card r container d callbacks w))))
  = map_get other (cardInstances (prov w)) /\
  map_get other
    (cardInstances
       (prov (final (PillarProvider.call (T_cardCleanup container) w))))
  = map_get other (cardInstances (prov w)).
Proof.
  intros Hne. split.
  - destruct r as [C]. unfold final. rewrite render_card_run. cbn.
    now apply map_get_set_other.
  - unfold final, PillarProvider.call, bind, asks.
    destruct (map_get container (cardInstances (prov w))); cbn;
      [now apply map_get_delete_other | reflexivity].
Qed.

Lemma card_containers_witness :
  let w1 := final (PillarProvider.render_card (R_card 3) 40 JNull
                     sample_callbacks sample_mounted) in
  let w2 := final (PillarProvider.render_card (R_card 3) 41 JNull
                     sample_callbacks w1) in
  map_get 40 (cardInstances (prov w2)) = Some 3 /\
  map_get 40
    (cardInstances (prov (final (PillarProvider.call (T_cardCleanup 41) w2))))
  = Some 3.
Proof.
  pose proof (card_containers_are_independent
    (final (PillarProvider.render_card (R_card 3) 40 JNull
              sample_callbacks sample_mounted))
    (R_card 3) 41 40 JNull sample_callbacks) as H1.
  pose proof (card_containers_are_independent
    (final (PillarProvider.render_card (R_card 3) 41 JNull sample_callbacks
       (final (PillarProvider.render_card (R_card 3) 40 JNull
                 sample_callbacks sample_mounted))))
    (R_card 3) 41 40 JNull sample_callbacks) as H2.
  destruct H1 as [H1 _]; [discriminate|].
  destruct H2 as [_ H2]; [discriminate|].
  cbv zeta. split; [rewrite H1; reflexivity | rewrite H2, H1; reflexivity].
Defined.

(** ** More on identifiers and the task handler *)

(** X13.  The provider does not check that an identifier was given: with
    neither [productKey] nor [helpCenter], a fresh initialization still
    calls the initializer, with the object [{ productKey: undefined,
    ...config }], and prints no warning; the [productKey] received is
    [undefined] when [config] has none of its own.  When the singleton
    already exists, no activation calls the initializer, whatever its
    props; the deprecation warning is still printed when only a non-empty
    alias is given. *)
Theorem identifier_edges (P : Props) (e : Env) (o : Sdk.InitOutcome) :
  (productKey P = None -> helpCenter P = None -> Pillar_instance e = None ->
   filter is_init (activation_effects P e o)
   = [SdkInit (mkInitArgs None (config P))] /\
   (config_without_productKey P ->
    obj_get "productKey" (mkInitArgs None (config P)) = Some JUndefined) /\
   filter is_warn (activation_effects P e o) = []) /\
  (forall existing, Pillar_instance e = Some existing ->
     filter is_init (activation_effects P e o) = [] /\
     (forall hc, productKey P = None -> helpCenter P = Some hc ->
                 hc <> EmptyString ->
                 filter is_warn (activation_effects P e o)
                 = [ConsoleWarn PillarProvider.deprecation_message])).
Proof.
  split.
  - intros Hpk Hhc Hnone.
    assert (Hslot : Pillar_instance (env (PillarProvider.create P e)) = None)
      by (destruct (create_sdk P e) as [-> _]; exact Hnone).
    destruct (fresh_mount_effects o _ Hslot) as [Hinit Hwarn].
    unfold init_args in Hinit. rewrite create_prov in Hinit. cbn in Hinit.
    rewrite activation_effects_split, !filter_app, Hinit, Hwarn, Hpk, Hhc.
    split; [reflexivity|]. split; [|reflexivity].
    apply (init_productKey_resolved None).
  - intros existing Hsome.
    assert (Hslot : Pillar_instance (env (PillarProvider.create P e))
                    = Some existing)
      by (destruct (create_sdk P e) as [-> _]; exact Hsome).
    assert (Hreuse : forall f,
      (forall i ev l t, f (SdkOn i ev l t) = false) ->
      (forall i ty r t, f (SdkRegisterCard i ty r t) = false) ->
      filter f (added (PillarProvider.create P e)
                  (after_onMount o (PillarProvider.create P e))) = []).
    { intros f Hon Hreg. unfold after_onMount. rewrite Hslot.
      rewrite added_after_reuse. cbn [filter]. rewrite !Hon.
      now apply filter_registrations. }
    split.
    + rewrite activation_effects_split, filter_app.
      rewrite Hreuse by reflexivity. rewrite app_nil_r.
      now destruct (truthy (helpCenter P) && negb (truthy (productKey P))).
    + intros hc Hpk Hhc Hne.
      rewrite activation_effects_split, filter_app.
      rewrite Hreuse by reflexivity. rewrite app_nil_r, Hpk, Hhc. cbn.
      now rewrite (truthy_string_nonempty hc Hne).
Qed.

Lemma identifier_edges_witness :
  filter is_init
    (activation_effects (mkProps None None None None None None)
       env_without_singleton (Sdk.InitResolves 7))
  = [SdkInit [("productKey", JUndefined)]] /\
  obj_get "productKey" (mkInitArgs None None) = Some JUndefined /\
  filter is_warn
    (activation_effects (mkProps None None None None None None)
       env_without_singleton (Sdk.InitResolves 7))
  = [].
Proof.
  destruct (proj1 (identifier_edges (mkProps None None None None None None)
                     env_without_singleton (Sdk.InitResolves 7))
              eq_refl eq_refl eq_refl) as [Hinit [Hkey Hwarn]].
  split; [exact Hinit|]. split; [apply Hkey; exact I | exact Hwarn].
Defined.



(** ** The panel hook over the provider *)

(** X15.  Through the provider's context, [openChat] of the panel hook is
    one [navigate('chat')] call without parameters on the instance, and
    nothing at all while the pillar store holds [null]; the hook's [isOpen]
    reads true after the ['panel:open'] listener has run and false after the
    ['panel:close'] listener has run. *)
Theorem help_panel_over_provider (w : World) (payload : JsVal) :
  exists r,
    UseHelpPanel.useHelpPanel (Some the_context) = Ok r /\
    UseHelpPanel.openChat r w
    = match pillarStore_value (prov w) with
      | Some i => (Ok tt, record (SdkNavigate i "chat" None) w)
      | None => (Ok tt, w)
      end /\
    Svelte.current (UseHelpPanel.isOpen r)
      (final (PillarProvider.run_listener L_panelOpen payload w)) = true /\
    Svelte.current (UseHelpPanel.isOpen r)
      (final (PillarProvider.run_listener L_panelClose payload w)) = false /\
    Svelte.current (UseHelpPanel.isOpen r) w = isPanelOpenStore_value (prov w).
Proof.
  eexists. split; [reflexivity|]. split; [|repeat split].
  cbn [UseHelpPanel.openChat]. run_context.
  now destruct (pillarStore_value (prov w)).
Qed.

(** ** While the initializer is pending *)

(** X16.  From the call of the initializer until it settles, the stores
    keep their initial values, so that each of the ten operations of the
    context returns normally and changes nothing, and [on] returns the
    no-op. *)
Theorem operations_while_pending (P : Props) (e : Env) (i : Pillar)
  (op : Operation) :
  Pillar_instance e = None ->
  let started :=
    PillarProvider.onMount_start (Sdk.InitResolves i) (PillarProvider.create P e) in
  fst started = Ok PillarProvider.AwaitingInit /\
  stores (snd started) = initial_stores /\
  Svelte.current (Types.isReady the_context) (snd started) = false /\
  run_operation the_context op (snd started)
  = (Ok (match op with Op_on _ _ => Some T_noop | _ => None end), snd started).
Proof.
  intros Hnone started.
  assert (Hslot : Pillar_instance (env (PillarProvider.create P e)) = None)
    by (destruct (create_sdk P e) as [-> _]; exact Hnone).
  assert (Hstarted : started
    = (Ok PillarProvider.AwaitingInit,
       record (SdkInit (init_args (PillarProvider.create P e)))
         (PillarProvider.create P e))).
  { unfold started, PillarProvider.onMount_start, try_catch, bind,
      Sdk.getInstance, asks. now rewrite Hslot. }
  rewrite Hstarted. cbn [fst snd].
  assert (Hprov : prov (record (SdkInit (init_args (PillarProvider.create P e)))
                          (PillarProvider.create P e))
    = mkProvider P (nullish_or (productKey P) (helpCenter P))
        None "uninitialized" false [] [] [])
    by (cbn; apply create_prov).
  split; [reflexivity|]. split; [unfold stores; now rewrite Hprov|].
  split; [cbn; now rewrite create_prov|].
  destruct op; run_context; rewrite Hprov; reflexivity.
Qed.

Lemma operations_while_pending_witness :
  run_operation the_context (Op_open None)
    (snd (PillarProvider.onMount_start (Sdk.InitResolves 7)
            (PillarProvider.create sample_props env_without_singleton)))
  = (Ok None,
     snd (PillarProvider.onMount_start (Sdk.InitResolves 7)
            (PillarProvider.create sample_props env_without_singleton))).
Proof.
  apply (operations_while_pending sample_props env_without_singleton 7
           (Op_open None) eq_refl).
Defined.
